(** * Video metadata extraction: a model of scripts/train_metadata_extraction.py

    The script probes every [.mp4] entry of a directory with [ffprobe], reads
    the JSON the tool prints and appends one CSV row per entry.  This file
    embeds the two functions of the script, [get_video_metadata] and
    [process_videos], together with the Python builtins and library calls
    they rely on, and states the properties of the specification over them.

    Conventions.  The name of a file and a text written to the table are
    [string]s; their characters are code points below 256.  A str of the
    JSON document is a [text]: the list of its code points, whatever they
    are.  A Python [int] is a [Z].  A Python [float] is a binary64 number,
    represented by [spec_float] with the operations of [SpecFloat] at
    precision 53 and maximal exponent 1024: all arithmetic on floats is
    exact integer arithmetic followed by one rounding to nearest even, as
    IEEE 754 prescribes.  Exceptions are values of [exn]; a call that may
    raise returns a [result]. *)

From Stdlib Require Import ZArith NArith List String Ascii Bool Lia.
From Stdlib Require Import DecimalString.
From Stdlib Require Import Floats.SpecFloat.
From Stdlib Require DecimalZ.
Import ListNotations.

Local Open Scope string_scope.
Local Open Scope Z_scope.

(** ** Exceptions *)

(** The exception classes that the calls of the script can raise.
    [FileNotFoundError], [NotADirectoryError] and [PermissionError] derive
    from [OSError]; [JSONDecodeError] and [UnicodeDecodeError] derive from
    [ValueError]. *)
Inductive exn : Type :=
| FileNotFoundError
| NotADirectoryError
| PermissionError
| CalledProcessError
| JSONDecodeError
| UnicodeDecodeError
| RecursionError
| ValueError
| KeyError
| ZeroDivisionError
| OverflowError
| TypeError
| AttributeError.

Inductive result (A : Type) : Type :=
| Ok (a : A)
| Raise (e : exn).

Arguments Ok {A} a.
Arguments Raise {A} e.

Definition exn_eqb (a b : exn) : bool :=
  match a, b with
  | FileNotFoundError, FileNotFoundError
  | NotADirectoryError, NotADirectoryError
  | PermissionError, PermissionError
  | CalledProcessError, CalledProcessError
  | JSONDecodeError, JSONDecodeError
  | UnicodeDecodeError, UnicodeDecodeError
  | RecursionError, RecursionError
  | ValueError, ValueError
  | KeyError, KeyError
  | ZeroDivisionError, ZeroDivisionError
  | OverflowError, OverflowError
  | TypeError, TypeError
  | AttributeError, AttributeError => true
  | _, _ => false
  end.

(** [isinstance e c]: an exception of class [e] is caught by [except c]. *)
Definition isinstance (e c : exn) : bool :=
  exn_eqb e c ||
  match e, c with
  | JSONDecodeError, ValueError => true
  | UnicodeDecodeError, ValueError => true
  | _, _ => false
  end.

(** ** Python strings *)

Module Str.

Definition code (c : ascii) : Z := Z.of_N (N_of_ascii c).

Definition chr (n : Z) : ascii := ascii_of_N (Z.to_N n).

(** [str.lower] on one character: [A]-[Z] and the upper-case letters of
    Latin-1 move by 32; every other character below 256 is left alone. *)
Definition lower_char (c : ascii) : ascii :=
  let n := code c in
  if ((65 <=? n) && (n <=? 90)) ||
     ((192 <=? n) && (n <=? 222) && negb (n =? 215))
  then chr (n + 32) else c.

Fixpoint lower (s : string) : string :=
  match s with
  | EmptyString => EmptyString
  | String c s' => String (lower_char c) (lower s')
  end.

Definition len (s : string) : Z := Z.of_nat (String.length s).

Fixpoint rev_onto (s acc : string) : string :=
  match s with
  | EmptyString => acc
  | String c s' => rev_onto s' (String c acc)
  end.

Definition rev (s : string) : string := rev_onto s EmptyString.

Fixpoint startswith (s p : string) : bool :=
  match p, s with
  | EmptyString, _ => true
  | String _ _, EmptyString => false
  | String a p', String b s' => Ascii.eqb a b && startswith s' p'
  end.

(** [s.rfind(c)]: the index of the last occurrence of [c], or -1. *)
Fixpoint rfind_from (c : ascii) (s : string) (i : Z) (last : Z) : Z :=
  match s with
  | EmptyString => last
  | String a s' => rfind_from c s' (i + 1) (if Ascii.eqb a c then i else last)
  end.

Definition rfind (s : string) (c : ascii) : Z := rfind_from c s 0 (-1).

(** Slices [s[:i]] and [s[i:]] for [0 <= i]. *)
Fixpoint take (n : nat) (s : string) : string :=
  match n, s with
  | S n', String c s' => String c (take n' s')
  | _, _ => EmptyString
  end.

Fixpoint drop (n : nat) (s : string) : string :=
  match n, s with
  | S n', String _ s' => drop n' s'
  | _, _ => s
  end.

(** [s.endswith(suffix)]: the last [len(suffix)] characters of [s] are
    [suffix]. *)
Definition endswith (s suffix : string) : bool :=
  (String.length suffix <=? String.length s)%nat &&
  String.eqb (drop (String.length s - String.length suffix) s) suffix.

(** [s[i:i+1]]: the character at [i] as a string, empty out of range. *)
Definition at_index (s : string) (i : Z) : string :=
  take 1 (drop (Z.to_nat i) s).

Fixpoint join (sep : string) (l : list string) : string :=
  match l with
  | [] => EmptyString
  | [x] => x
  | x :: rest => x ++ sep ++ join sep rest
  end.

Fixpoint repeat (c : ascii) (n : nat) : string :=
  match n with
  | O => EmptyString
  | S n' => String c (repeat c n')
  end.

Fixpoint mem (c : ascii) (s : string) : bool :=
  match s with
  | EmptyString => false
  | String a s' => Ascii.eqb a c || mem c s'
  end.

End Str.

(** ** The strings of the JSON document *)

(** A str with characters of any kind: the list of its code points. *)
Definition text : Type := list N.

Module Text.

(** The text with the characters of [s]. *)
Definition of_string (s : string) : text :=
  map N_of_ascii (list_ascii_of_string s).

Fixpoint eqb (a b : text) : bool :=
  match a, b with
  | [], [] => true
  | x :: a', y :: b' => N.eqb x y && eqb a' b'
  | _, _ => false
  end.

(** [s.split(sep)] for a one-character separator: the pieces between the
    occurrences of [sep], always at least one piece. *)
Fixpoint split (sep : ascii) (s : text) : list text :=
  match s with
  | [] => [[]]
  | c :: s' =>
      if N.eqb c (N_of_ascii sep) then [] :: split sep s'
      else match split sep s' with
           | p :: ps => (c :: p) :: ps
           | [] => [[c]]
           end
  end.

End Text.

(** A literal of the script stands for the text of its characters. *)
Coercion Text.of_string : string >-> text.

(** ** Python numbers *)

Module Num.

Definition prec : Z := 53.
Definition emax : Z := 1024.

Definition float_eqb (x y : spec_float) : bool :=
  match x, y with
  | S754_zero a, S754_zero b => Bool.eqb a b
  | S754_infinity a, S754_infinity b => Bool.eqb a b
  | S754_nan, S754_nan => true
  | S754_finite a m e, S754_finite b n f =>
      Bool.eqb a b && Pos.eqb m n && Z.eqb e f
  | _, _ => false
  end.

(** The binary64 number nearest to [(-1)^s * n / d], ties to even. *)
Definition nearest_ratio (s : bool) (n d : positive) : spec_float :=
  SFdiv prec emax (S754_finite s n 0) (S754_finite false d 0).

(** The binary64 number nearest to [(-1)^s * m * 10^e]: the value of a
    decimal literal, an infinity when it is out of range. *)
Definition nearest_decimal (s : bool) (m : Z) (e : Z) : spec_float :=
  match m with
  | Zpos p =>
      if 0 <=? e then binary_round prec emax s (Z.to_pos (Zpos p * 10 ^ e)) 0
      else nearest_ratio s p (Z.to_pos (10 ^ (- e)))
  | _ => S754_zero s
  end.

(** [float(n)] for an int: correctly rounded, [OverflowError] out of range. *)
Definition float_of_int (n : Z) : result spec_float :=
  match binary_normalize prec emax n 0 false with
  | S754_infinity _ => Raise OverflowError
  | x => Ok x
  end.

(** [int(x)] for a float: truncation toward zero. *)
Definition int_of_float (x : spec_float) : result Z :=
  match x with
  | S754_zero _ => Ok 0
  | S754_infinity _ => Raise OverflowError
  | S754_nan => Raise ValueError
  | S754_finite s m e =>
      let a := if 0 <=? e then Zpos m * 2 ^ e else Zpos m / 2 ^ (- e) in
      Ok (if s then - a else a)
  end.

(** [a / b] on ints (true division): the correctly rounded quotient. *)
Definition truediv (a b : Z) : result spec_float :=
  if b =? 0 then Raise ZeroDivisionError
  else
    let s := xorb (a <? 0) (b <? 0) in
    match a with
    | 0 => Ok (S754_zero s)
    | _ =>
        match nearest_ratio s (Z.to_pos (Z.abs a)) (Z.to_pos (Z.abs b)) with
        | S754_infinity _ => Raise OverflowError
        | q => Ok q
        end
    end.

(** The integer nearest to [n / d] for [0 <= n] and [0 < d], ties to even. *)
Definition div_half_even (n d : Z) : Z :=
  let q := n / d in
  match 2 * (n mod d) ?= d with
  | Lt => q
  | Gt => q + 1
  | Eq => if Z.even q then q else q + 1
  end.

(** [round(x, ndigits)] for a float and [0 <= ndigits]: the exact value of
    [x] is rounded to [ndigits] decimals, ties to even, and the decimal
    obtained is converted back to the nearest float.  Infinities and NaN
    round to themselves. *)
Definition round (x : spec_float) (ndigits : Z) : spec_float :=
  match x with
  | S754_finite s m e =>
      let p := 10 ^ ndigits in
      let n := if 0 <=? e then Zpos m * 2 ^ e * p
               else div_half_even (Zpos m * p) (2 ^ (- e)) in
      match n with
      | Zpos n' => nearest_ratio s n' (Z.to_pos p)
      | _ => S754_zero s
      end
  | _ => x
  end.

(** *** Reading numbers from strings *)

(** [Py_UNICODE_ISSPACE]: the characters for which [str.isspace] holds. *)
Definition unicode_isspace (ch : N) : bool :=
  (((9 <=? ch) && (ch <=? 13)) || ((28 <=? ch) && (ch <=? 32)) ||
   (ch =? 0x85) || (ch =? 0xA0) || (ch =? 0x1680) ||
   ((0x2000 <=? ch) && (ch <=? 0x200A)) ||
   (ch =? 0x2028) || (ch =? 0x2029) || (ch =? 0x202F) ||
   (ch =? 0x205F) || (ch =? 0x3000))%N.

(** The digit zero of every script with decimal digits (Unicode 14.0, the
    database of CPython 3.11); the digits 0 to 9 of a script are ten
    consecutive code points. *)
Definition decimal_zeros : list N :=
  [0x30; 0x660; 0x6F0; 0x7C0; 0x966; 0x9E6; 0xA66; 0xAE6; 0xB66; 0xBE6;
   0xC66; 0xCE6; 0xD66; 0xDE6; 0xE50; 0xED0; 0xF20; 0x1040; 0x1090; 0x17E0;
   0x1810; 0x1946; 0x19D0; 0x1A80; 0x1A90; 0x1B50; 0x1BB0; 0x1C40; 0x1C50;
   0xA620; 0xA8D0; 0xA900; 0xA9D0; 0xA9F0; 0xAA50; 0xABF0; 0xFF10; 0x104A0;
   0x10D30; 0x11066; 0x110F0; 0x11136; 0x111D0; 0x112F0; 0x11450; 0x114D0;
   0x11650; 0x116C0; 0x11730; 0x118E0; 0x11950; 0x11C50; 0x11D50; 0x11DA0;
   0x16A60; 0x16AC0; 0x16B50; 0x1D7CE; 0x1D7D8; 0x1D7E2; 0x1D7EC; 0x1D7F6;
   0x1E140; 0x1E2F0; 0x1E950; 0x1FBF0]%N.

Fixpoint decimal_in (zeros : list N) (ch : N) : option N :=
  match zeros with
  | [] => None
  | z :: rest =>
      if ((z <=? ch) && (ch <=? z + 9))%N then Some (ch - z)%N
      else decimal_in rest ch
  end.

(** [Py_UNICODE_TODECIMAL]: the value of a decimal digit of any script. *)
Definition unicode_todecimal (ch : N) : option N :=
  decimal_in decimal_zeros ch.

(** The loop of [_PyUnicode_TransformDecimalAndSpaceToASCII]: a character
    below 127 stays, white space becomes a space, a decimal digit becomes
    the ASCII digit of its value, and the first character of another kind
    becomes [?] and ends the string. *)
Fixpoint transform (s : text) : string :=
  match s with
  | [] => EmptyString
  | ch :: s' =>
      if (ch <? 127)%N then String (ascii_of_N ch) (transform s')
      else if unicode_isspace ch then String " " (transform s')
      else
        match unicode_todecimal ch with
        | Some d => String (ascii_of_N (48 + d)) (transform s')
        | None => "?"
        end
  end.

Definition is_ascii (s : text) : bool :=
  forallb (fun ch => (ch <? 128)%N) s.

(** What [int] and [float] read in place of a str: an ASCII str as it is,
    any other through [transform]. *)
Definition ascii_form (s : text) : string :=
  if is_ascii s then string_of_list_ascii (map ascii_of_N s)
  else transform s.

(** [Py_ISSPACE]: the white space the two conversions skip at both ends of
    what they read. *)
Definition isspace (c : ascii) : bool :=
  let n := Str.code c in
  ((9 <=? n) && (n <=? 13)) || (n =? 32).

Fixpoint lstrip (s : string) : string :=
  match s with
  | String c s' => if isspace c then lstrip s' else s
  | EmptyString => EmptyString
  end.

Definition strip (s : string) : string :=
  Str.rev (lstrip (Str.rev (lstrip s))).

Definition digit (c : ascii) : option Z :=
  let n := Str.code c in
  if (48 <=? n) && (n <=? 57) then Some (n - 48) else None.

(** What a run of digits denotes: its value and how many digits it has. *)
Record digits : Type := { dval : Z; dcount : Z }.

Definition push (ds : digits) (d : Z) : digits :=
  {| dval := 10 * dval ds + d; dcount := dcount ds + 1 |}.

Definition no_digits : digits := {| dval := 0; dcount := 0 |}.

(** Reads the rest of a [digitpart ::= digit (["_"] digit)*] after at least
    one digit: an underscore is consumed only between two digits. *)
Fixpoint more_digits (s : string) (acc : digits) : digits * string :=
  match s with
  | String c s' =>
      match digit c with
      | Some d => more_digits s' (push acc d)
      | None =>
          if Ascii.eqb c "_" then
            match s' with
            | String c2 s'' =>
                match digit c2 with
                | Some d => more_digits s'' (push acc d)
                | None => (acc, s)
                end
            | EmptyString => (acc, s)
            end
          else (acc, s)
      end
  | EmptyString => (acc, s)
  end.

(** Reads a [digitpart] at the head of [s], if there is one. *)
Definition digitpart (s : string) : option (digits * string) :=
  match s with
  | String c s' =>
      match digit c with
      | Some d => Some (more_digits s' (push no_digits d))
      | None => None
      end
  | EmptyString => None
  end.

(** Splits an optional sign off: [true] for a minus. *)
Definition sign (s : string) : bool * string :=
  match s with
  | String c s' =>
      if Ascii.eqb c "-" then (true, s')
      else if Ascii.eqb c "+" then (false, s')
      else (false, s)
  | EmptyString => (false, s)
  end.

(** The longest decimal string [int] converts (sys.int_info). *)
Definition max_str_digits : Z := 4300.

(** [PyLong_FromString] in base 10: the int a string of ASCII characters
    denotes. *)
Definition int_of_ascii (s : string) : result Z :=
  let '(neg, body) := sign (strip s) in
  match digitpart body with
  | Some (ds, EmptyString) =>
      if max_str_digits <? dcount ds then Raise ValueError
      else Ok (if neg then - dval ds else dval ds)
  | _ => Raise ValueError
  end.

(** [int(s)] for a str, base 10. *)
Definition int_of_str (s : text) : result Z :=
  int_of_ascii (ascii_form s).

(** The exponent part of a float literal, when a well-formed one follows. *)
Definition exponent (s : string) : option (Z * string) :=
  match s with
  | String c s' =>
      if Ascii.eqb c "e" || Ascii.eqb c "E" then
        let '(neg, body) := sign s' in
        match digitpart body with
        | Some (ds, rest) => Some (if neg then - dval ds else dval ds, rest)
        | None => None
        end
      else None
  | EmptyString => None
  end.

(** [number ::= [digitpart] "." digitpart | digitpart ["."]]: the integer
    made of all its digits and the number of digits after the point. *)
Definition number (s : string) : option (Z * Z * string) :=
  match digitpart s with
  | Some (ip, String "." rest) =>
      match digitpart rest with
      | Some (fp, rest') =>
          Some (dval ip * 10 ^ dcount fp + dval fp, dcount fp, rest')
      | None => Some (dval ip, 0, rest)
      end
  | Some (ip, rest) => Some (dval ip, 0, rest)
  | None =>
      match s with
      | String "." rest =>
          match digitpart rest with
          | Some (fp, rest') => Some (dval fp, dcount fp, rest')
          | None => None
          end
      | _ => None
      end
  end.

(** [float_from_string_inner]: the float a string of ASCII characters
    denotes. *)
Definition float_of_ascii (s : string) : result spec_float :=
  let '(neg, body) := sign (strip s) in
  let word := Str.lower body in
  if String.eqb word "inf" || String.eqb word "infinity"
  then Ok (S754_infinity neg)
  else if String.eqb word "nan" then Ok S754_nan
  else
    match number body with
    | Some (m, nfrac, rest) =>
        match rest with
        | EmptyString => Ok (nearest_decimal neg m (- nfrac))
        | _ =>
            match exponent rest with
            | Some (e, EmptyString) => Ok (nearest_decimal neg m (e - nfrac))
            | _ => Raise ValueError
            end
        end
    | None => Raise ValueError
    end.

(** [float(s)] for a str. *)
Definition float_of_str (s : text) : result spec_float :=
  float_of_ascii (ascii_form s).

End Num.

(** *** Printing numbers *)

Module Repr.

Import Num.

(** [str(n)] for an int. *)
Definition of_int (n : Z) : string :=
  DecimalString.NilZero.string_of_int (Z.to_int n).

(** [n / d < 10^k] for positive [n] and [d]. *)
Definition below_pow10 (n d k : Z) : bool :=
  if 0 <=? k then n <? d * 10 ^ k else n * 10 ^ (- k) <? d.

(** The decimal exponent of [n / d]: the [t] with [10^t <= n/d < 10^(t+1)],
    searched upwards from [t]. *)
Fixpoint exponent10 (fuel : nat) (n d t : Z) : Z :=
  match fuel with
  | O => t
  | S fuel' =>
      if below_pow10 n d (t + 1) then t else exponent10 fuel' n d (t + 1)
  end.

(** The decimal [c * 10^k] nearest to [n / d] among those that read back as
    [x], if one of the two multiples of [10^k] around [n / d] does. *)
Definition candidate (x : spec_float) (s : bool) (n d k : Z) : option Z :=
  let num := if 0 <=? k then n else n * 10 ^ (- k) in
  let den := if 0 <=? k then d * 10 ^ k else d in
  let lo := num / den in
  let r := num mod den in
  let back c := float_eqb (nearest_decimal s c k) x in
  if r =? 0 then (if back lo then Some lo else None)
  else
    let hi := lo + 1 in
    let lo_first :=
      match 2 * r ?= den with
      | Lt => true
      | Gt => false
      | Eq => Z.even lo
      end in
    match back lo, back hi with
    | true, true => Some (if lo_first then lo else hi)
    | true, false => Some lo
    | false, true => Some hi
    | false, false => None
    end.

(** The shortest decimal that reads back as [x]: tries 1, 2, ... significant
    digits; 17 always suffice for a binary64 number. *)
Fixpoint shortest (fuel : nat) (x : spec_float) (s : bool) (n d t p : Z)
  : Z * Z :=
  let k := t - p + 1 in
  match fuel with
  | O => (Num.div_half_even
            (if 0 <=? k then n else n * 10 ^ (- k))
            (if 0 <=? k then d * 10 ^ k else d), k)
  | S fuel' =>
      match candidate x s n d k with
      | Some c => (c, k)
      | None => shortest fuel' x s n d t (p + 1)
      end
  end.

Fixpoint drop_zeros (fuel : nat) (c k : Z) : Z * Z :=
  match fuel with
  | O => (c, k)
  | S fuel' =>
      if (c mod 10 =? 0) && negb (c =? 0) then drop_zeros fuel' (c / 10) (k + 1)
      else (c, k)
  end.

Definition two_digits (e : Z) : string :=
  if e <? 10 then "0" ++ of_int e else of_int e.

(** Lays out the digits [ds] of a number [0.ds * 10^decpt] the way [repr]
    does: exponent notation when [decpt <= -4] or [16 < decpt]. *)
Definition layout (ds : string) (decpt : Z) : string :=
  let n := Str.len ds in
  if (decpt <=? -4) || (16 <? decpt) then
    let e := decpt - 1 in
    Str.take 1 ds ++
    (if 1 <? n then "." ++ Str.drop 1 ds else EmptyString) ++
    "e" ++ (if e <? 0 then "-" else "+") ++ two_digits (Z.abs e)
  else if decpt <=? 0 then
    "0." ++ Str.repeat "0" (Z.to_nat (- decpt)) ++ ds
  else if n <=? decpt then
    ds ++ Str.repeat "0" (Z.to_nat (decpt - n)) ++ ".0"
  else
    Str.take (Z.to_nat decpt) ds ++ "." ++ Str.drop (Z.to_nat decpt) ds.

(** [repr(x)] (which is also [str(x)]) for a float. *)
Definition of_float (x : spec_float) : string :=
  match x with
  | S754_nan => "nan"
  | S754_infinity s => if s then "-inf" else "inf"
  | S754_zero s => if s then "-0.0" else "0.0"
  | S754_finite s m e =>
      let n := if 0 <=? e then Zpos m * 2 ^ e else Zpos m in
      let d := if 0 <=? e then 1 else 2 ^ (- e) in
      let t := exponent10 700 n d (-330) in
      let '(c, k) := shortest 16 x s n d t 1 in
      let '(c', k') := drop_zeros 400 c k in
      let ds := of_int c' in
      (if s then "-" else EmptyString) ++ layout ds (Str.len ds + k')
  end.

End Repr.

(** ** Python objects *)

Set Warnings "-register-all".

(** What [json.loads] builds: the tree of a JSON document.  The bindings of
    an object are kept in a list; the first binding of a key is the one a
    lookup sees.  The script looks keys up by literals only, so keys are
    [string]s; the strings it converts and splits are [text]s. *)
Inductive json : Type :=
| JNull
| JBool (b : bool)
| JInt (n : Z)
| JFloat (x : spec_float)
| JStr (s : text)
| JList (items : list json)
| JDict (bindings : list (string * json)).

(** The values the script stores in its record and hands to the CSV writer:
    [None], an int, a float or a str. *)
Inductive scalar : Type :=
| SNone
| SInt (n : Z)
| SFloat (x : spec_float)
| SStr (s : string).

Module Obj.

Fixpoint assoc (k : string) (d : list (string * json)) : option json :=
  match d with
  | [] => None
  | (k', v) :: d' => if String.eqb k k' then Some v else assoc k d'
  end.

(** [o.get(key, default)]: only a dict has the method. *)
Definition get (o : json) (key : string) (default : json) : result json :=
  match o with
  | JDict d =>
      Ok (match assoc key d with Some v => v | None => default end)
  | _ => Raise AttributeError
  end.

(** [float(o)] *)
Definition to_float (o : json) : result spec_float :=
  match o with
  | JNull | JList _ | JDict _ => Raise TypeError
  | JBool b => Num.float_of_int (if b then 1 else 0)
  | JInt n => Num.float_of_int n
  | JFloat x => Ok x
  | JStr s => Num.float_of_str s
  end.

(** [int(o)] *)
Definition to_int (o : json) : result Z :=
  match o with
  | JNull | JList _ | JDict _ => Raise TypeError
  | JBool b => Ok (if b then 1 else 0)
  | JInt n => Ok n
  | JFloat x => Num.int_of_float x
  | JStr s => Num.int_of_str s
  end.

(** [o == s] for a str [s]. *)
Definition eq_str (o : json) (s : text) : bool :=
  match o with
  | JStr s' => Text.eqb s' s
  | _ => false
  end.

(** Truth value of an object, as [if o:] tests it. *)
Definition truthy (o : json) : bool :=
  match o with
  | JNull => false
  | JBool b => b
  | JInt n => negb (n =? 0)
  | JFloat x =>
      match x with S754_zero _ => false | _ => true end
  | JStr s => match s with [] => false | _ => true end
  | JList l => match l with [] => false | _ => true end
  | JDict d => match d with [] => false | _ => true end
  end.

Fixpoint chars (s : text) : list json :=
  match s with
  | [] => []
  | c :: s' => JStr [c] :: chars s'
  end.

(** [iter(o)]: the items a [for] over [o] visits.  A list yields its
    elements, a dict its keys, a str its characters; nothing else in a JSON
    tree is iterable. *)
Definition iter (o : json) : result (list json) :=
  match o with
  | JList l => Ok l
  | JDict d => Ok (map (fun kv : string * json => JStr (fst kv)) d)
  | JStr s => Ok (chars s)
  | _ => Raise TypeError
  end.

(** [o.split('/')]: only a str has the method. *)
Definition split_slash (o : json) : result (list text) :=
  match o with
  | JStr s => Ok (Text.split "/" s)
  | _ => Raise AttributeError
  end.

End Obj.

(** ** os.path (POSIX) *)

Module PosixPath.

(** The loop of [genericpath._splitext] that skips leading dots: looks for
    a character other than [.] in [p[filenameIndex:dotIndex]]. *)
Fixpoint has_stem (p : string) (filenameIndex : Z) (steps : nat) : bool :=
  match steps with
  | O => false
  | S steps' =>
      if negb (String.eqb (Str.at_index p filenameIndex) ".") then true
      else has_stem p (filenameIndex + 1) steps'
  end.

(** [os.path.splitext(p)] *)
Definition splitext (p : string) : string * string :=
  let sepIndex := Str.rfind p "/" in
  let dotIndex := Str.rfind p "." in
  if (sepIndex <? dotIndex) &&
     has_stem p (sepIndex + 1) (Z.to_nat (dotIndex - (sepIndex + 1)))
  then (Str.take (Z.to_nat dotIndex) p, Str.drop (Z.to_nat dotIndex) p)
  else (p, EmptyString).

(** [os.path.join(a, b)] *)
Definition join (a b : string) : string :=
  if Str.startswith b "/" then b
  else if String.eqb a EmptyString || Str.endswith a "/" then a ++ b
  else a ++ "/" ++ b.

End PosixPath.

(** ** csv.writer, default dialect *)

Module Csv.

(** The text of a field before quoting. *)
Definition text (v : scalar) : string :=
  match v with
  | SNone => EmptyString
  | SInt n => Repr.of_int n
  | SFloat x => Repr.of_float x
  | SStr s => s
  end.

Definition quotechar : ascii := Str.chr 34.

Definition special (c : ascii) : bool :=
  Ascii.eqb c "," || Ascii.eqb c quotechar ||
  Ascii.eqb c (Str.chr 13) || Ascii.eqb c (Str.chr 10).

Fixpoint needs_quotes (s : string) : bool :=
  match s with
  | EmptyString => false
  | String c s' => special c || needs_quotes s'
  end.

Fixpoint double_quotes (s : string) : string :=
  match s with
  | EmptyString => EmptyString
  | String c s' =>
      if Ascii.eqb c quotechar then String c (String c (double_quotes s'))
      else String c (double_quotes s')
  end.

(** A field as it stands in the file (QUOTE_MINIMAL, doublequote). *)
Definition cell (v : scalar) : string :=
  let t := text v in
  if needs_quotes t
  then String quotechar (double_quotes t ++ String quotechar EmptyString)
  else t.

Definition lineterminator : string :=
  String (Str.chr 13) (String (Str.chr 10) EmptyString).

(** The line [writer.writerow(row)] appends, for a row of two or more
    fields. *)
Definition line (row : list scalar) : string :=
  Str.join "," (map cell row) ++ lineterminator.

End Csv.

(** ** The environment of a run *)

(** What a path names on disk: a regular file, a directory with its entries,
    or a directory that the process may not list. *)
Inductive node : Type :=
| File
| Directory (entries : list string)
| Unreadable.

(** What the probing tool printed, seen through [json.loads]:
    - [Garbage]: bytes that are not a JSON document;
    - [Undecodable]: bytes that are not text in UTF-8, UTF-16 or UTF-32;
    - [Oversized]: a document with an integer of more digits than [int]
      converts;
    - [TooDeep]: a document nested beyond the recursion limit;
    - [Document info]: the tree of the document. *)
Inductive stdout : Type :=
| Garbage
| Undecodable
| Oversized
| TooDeep
| Document (info : json).

(** The part of the machine the script talks to.
    - [node_at p]: what [p] names, [None] when nothing has that name;
    - [run cmd]: what [subprocess.check_output(cmd)] does: the output of the
      command, [CalledProcessError] when it exits with a non-zero status,
      [FileNotFoundError] when the program is not installed;
    - [open_error p]: the error [open(p, 'w')] raises, if it raises. *)
Record world : Type := {
  node_at : string -> option node;
  run : list string -> result stdout;
  open_error : string -> option exn
}.

Definition os_path_exists (w : world) (p : string) : bool :=
  match node_at w p with
  | Some _ => true
  | None => false
  end.

Definition os_listdir (w : world) (p : string) : result (list string) :=
  match node_at w p with
  | Some (Directory entries) => Ok entries
  | Some File => Raise NotADirectoryError
  | Some Unreadable => Raise PermissionError
  | None => Raise FileNotFoundError
  end.

Definition json_loads (output : stdout) : result json :=
  match output with
  | Document info => Ok info
  | Garbage => Raise JSONDecodeError
  | Undecodable => Raise UnicodeDecodeError
  | Oversized => Raise ValueError
  | TooDeep => Raise RecursionError
  end.

(** The records of the log, one constructor per message of the script. *)
Inductive log_record : Type :=
| Error_processing (video_path : string) (e : exn)
| Error_no_directory (video_dir : string)
| Info_found (count : Z) (video_dir : string)
| Info_done (output_csv : string).

(** ** Calls that may raise *)

Definition and_then {A B : Type} (r : result A) (k : A -> result B)
  : result B :=
  match r with
  | Ok a => k a
  | Raise e => Raise e
  end.

Notation "'let?' x := r 'in' k" := (and_then r (fun x => k))
  (at level 10, x name, r at level 100, k at level 200).

(** ** The record under construction *)

(** The dict [metadata] of [get_video_metadata], one field per key. *)
Record metadata : Type := {
  duration : scalar;
  width : scalar;
  height : scalar;
  fps : scalar;
  has_audio : scalar;
  bitrate : scalar
}.

Definition set_duration (v : scalar) (m : metadata) : metadata :=
  {| duration := v; width := width m; height := height m; fps := fps m;
     has_audio := has_audio m; bitrate := bitrate m |}.

Definition set_width (v : scalar) (m : metadata) : metadata :=
  {| duration := duration m; width := v; height := height m; fps := fps m;
     has_audio := has_audio m; bitrate := bitrate m |}.

Definition set_height (v : scalar) (m : metadata) : metadata :=
  {| duration := duration m; width := width m; height := v; fps := fps m;
     has_audio := has_audio m; bitrate := bitrate m |}.

Definition set_fps (v : scalar) (m : metadata) : metadata :=
  {| duration := duration m; width := width m; height := height m; fps := v;
     has_audio := has_audio m; bitrate := bitrate m |}.

Definition set_has_audio (v : scalar) (m : metadata) : metadata :=
  {| duration := duration m; width := width m; height := height m;
     fps := fps m; has_audio := v; bitrate := bitrate m |}.

Definition set_bitrate (v : scalar) (m : metadata) : metadata :=
  {| duration := duration m; width := width m; height := height m;
     fps := fps m; has_audio := has_audio m; bitrate := v |}.

(** The statements of the [try] block update [metadata] in place and may
    raise half-way: a block maps the dict before to the dict after and to
    either a value or the exception that stopped it. *)
Definition block (A : Type) : Type := metadata -> metadata * result A.

Definition done {A : Type} (a : A) : block A := fun m => (m, Ok a).

Definition seq {A B : Type} (c : block A) (k : A -> block B) : block B :=
  fun m =>
    match c m with
    | (m', Ok a) => k a m'
    | (m', Raise e) => (m', Raise e)
    end.

Definition eval {A : Type} (r : result A) : block A := fun m => (m, r).

Definition store (f : scalar -> metadata -> metadata) (v : scalar)
  : block unit :=
  fun m => (f v m, Ok tt).

Notation "'do' x <- c ; k" := (seq c (fun x => k))
  (at level 60, x name, c at next level, right associativity).

(** ** get_video_metadata *)

(** [next((s for s in streams if s.get('codec_type') == kind), default)]
    over the items of [streams]: the first item of that kind, [None] when
    the items run out.  Items after the first match are never looked at. *)
Fixpoint first_stream (kind : string) (items : list json)
  : result (option json) :=
  match items with
  | [] => Ok None
  | s :: rest =>
      let? t := Obj.get s "codec_type" JNull in
      if Obj.eq_str t kind then Ok (Some s) else first_stream kind rest
  end.

(** Lines 102-106: the value stored under ['fps'] for the pieces of the
    frame-rate string. *)
Definition fps_of_parts (fps_parts : list text) : result scalar :=
  match fps_parts with
  | [numerator; denominator] =>
      let? d := Num.int_of_str denominator in
      if negb (d =? 0) then
        let? n := Num.int_of_str numerator in
        let? d' := Num.int_of_str denominator in
        let? q := Num.truediv n d' in
        Ok (SFloat (Num.round q 2))
      else Ok (SInt 0)
  | _ => Ok (SInt 0)
  end.

Definition cmd (video_path : string) : list string :=
  ["ffprobe"; "-v"; "quiet"; "-print_format"; "json";
   "-show_format"; "-show_streams"; video_path].

(** The body of the [try] statement, lines 56-109. *)
Definition try_body (w : world) (video_path : string) : block unit :=
  do output <- eval (run w (cmd video_path));
  do info <- eval (json_loads output);
  do fmt <- eval (Obj.get info "format" (JDict []));
  do duration_field <- eval (Obj.get fmt "duration" (JInt 0));
  do duration_value <- eval (Obj.to_float duration_field);
  do _ <- store set_duration (SFloat duration_value);
  do bit_rate_field <- eval (Obj.get fmt "bit_rate" (JInt 0));
  do bit_rate_value <- eval (Obj.to_int bit_rate_field);
  do _ <- store set_bitrate (SInt bit_rate_value);
  do streams <- eval (Obj.get info "streams" (JList []));
  do video_items <- eval (Obj.iter streams);
  do video_found <- eval (first_stream "video" video_items);
  let video_stream :=
    match video_found with Some s => s | None => JDict [] end in
  do audio_items <- eval (Obj.iter streams);
  do audio_stream <- eval (first_stream "audio" audio_items);
  do _ <-
    (if Obj.truthy video_stream then
       do width_field <- eval (Obj.get video_stream "width" (JInt 0));
       do width_value <- eval (Obj.to_int width_field);
       do _ <- store set_width (SInt width_value);
       do height_field <- eval (Obj.get video_stream "height" (JInt 0));
       do height_value <- eval (Obj.to_int height_field);
       do _ <- store set_height (SInt height_value);
       do rate <- eval (Obj.get video_stream "r_frame_rate" (JStr "0/1"));
       do fps_parts <- eval (Obj.split_slash rate);
       do fps_value <- eval (fps_of_parts fps_parts);
       store set_fps fps_value
     else done tt);
  store set_has_audio
    (match audio_stream with
     | Some s => if Obj.truthy s then SInt 1 else SInt 0
     | None => SInt 0
     end).

(** The classes named by the [except] clause, line 111. *)
Definition caught (e : exn) : bool :=
  isinstance e CalledProcessError || isinstance e ValueError ||
  isinstance e KeyError || isinstance e ZeroDivisionError.

(** The dict the function starts from, lines 39-46. *)
Definition defaults : metadata :=
  {| duration := SNone; width := SNone; height := SNone; fps := SNone;
     has_audio := SInt 0; bitrate := SNone |}.

(** [get_video_metadata(video_path)]: the dict returned or the exception
    that escapes, and the records logged on the way. *)
Definition get_video_metadata (w : world) (video_path : string)
  : result metadata * list log_record :=
  match try_body w video_path defaults with
  | (m, Ok _) => (Ok m, [])
  | (m, Raise e) =>
      if caught e then (Ok m, [Error_processing video_path e])
      else (Raise e, [])
  end.

(** ** process_videos *)

(** What a run leaves behind: how it ended, what it logged, and the lines
    it wrote to the output file ([None] when the file was never opened, so
    neither created nor truncated). *)
Record outcome : Type := {
  ending : result unit;
  log : list log_record;
  written : option (list string)
}.

Definition header : list scalar :=
  [SStr "Id"; SStr "duration"; SStr "width"; SStr "height"; SStr "fps";
   SStr "has_audio"; SStr "bitrate"].

(** The row written for one file, lines 163-171. *)
Definition row (vid_id : string) (meta : metadata) : list scalar :=
  [SStr vid_id; duration meta; width meta; height meta; fps meta;
   has_audio meta; bitrate meta].

(** The [for] loop, lines 152-171, from the lines and the log so far.  An
    exception leaving [get_video_metadata] ends the loop; the [with]
    statement then closes the file with the lines written up to there.
    The names of this model and the numbers of a record can always be
    encoded, so [writer.writerow] raises nothing here; a failure of the
    file system while writing is not modelled. *)
Fixpoint write_rows (w : world) (video_dir : string) (files : list string)
  (lines : list string) (logged : list log_record)
  : result unit * list string * list log_record :=
  match files with
  | [] => (Ok tt, lines, logged)
  | f :: rest =>
      let vid_id := fst (PosixPath.splitext f) in
      let path := PosixPath.join video_dir f in
      match get_video_metadata w path with
      | (Ok meta, l) =>
          write_rows w video_dir rest
            (lines ++ [Csv.line (row vid_id meta)])%list (logged ++ l)%list
      | (Raise e, l) => (Raise e, lines, (logged ++ l)%list)
      end
  end.

(** The filter of line 136. *)
Definition is_mp4 (f : string) : bool :=
  Str.endswith (Str.lower f) ".mp4".

(** [process_videos(video_dir, output_csv)] *)
Definition process_videos (w : world) (video_dir output_csv : string)
  : outcome :=
  if negb (os_path_exists w video_dir) then
    {| ending := Ok tt;
       log := [Error_no_directory video_dir];
       written := None |}
  else
    match os_listdir w video_dir with
    | Raise e => {| ending := Raise e; log := []; written := None |}
    | Ok entries =>
        let files := filter is_mp4 entries in
        let found := Info_found (Z.of_nat (List.length files)) video_dir in
        match open_error w output_csv with
        | Some e => {| ending := Raise e; log := [found]; written := None |}
        | None =>
            match write_rows w video_dir files [Csv.line header] [found] with
            | (Ok _, lines, logged) =>
                {| ending := Ok tt;
                   log := (logged ++ [Info_done output_csv])%list;
                   written := Some lines |}
            | (Raise e, lines, logged) =>
                {| ending := Raise e; log := logged; written := Some lines |}
            end
        end
    end.

(** ** Vocabulary of the specification *)

(** The name [f] ends in the video extension, whatever the case of its
    letters: it is some stem followed by four characters that lower-case to
    [.mp4]. *)
Definition ends_in_video_extension (f : string) : Prop :=
  exists stem ext, f = (stem ++ ext)%string /\ Str.lower ext = ".mp4".

(** The string has a character other than [.]. *)
Fixpoint has_other_than_dot (s : string) : bool :=
  match s with
  | EmptyString => false
  | String c s' => negb (Ascii.eqb c ".") || has_other_than_dot s'
  end.

(** A stream entry of the given type: a JSON object whose [codec_type] is
    that string. *)
Definition is_entry (kind : string) (s : json) : bool :=
  match s with
  | JDict d =>
      match Obj.assoc "codec_type" d with
      | Some t => Obj.eq_str t kind
      | None => false
      end
  | _ => false
  end.

(** The stream list of the probe of [video_path]: the array under
    [streams] in the document the tool printed, empty when there is no
    document or no such array. *)
Definition stream_list (w : world) (video_path : string) : list json :=
  match run w (cmd video_path) with
  | Ok (Document (JDict d)) =>
      match Obj.assoc "streams" d with
      | Some (JList l) => l
      | _ => []
      end
  | _ => []
  end.

(** An audio stream entry is present in the probe's stream list. *)
Definition audio_present (w : world) (video_path : string) : bool :=
  existsb (is_entry "audio") (stream_list w video_path).

(** The probe of [video_path] is well formed and its video stream reports
    the frame-rate string [rate]: the tool printed a JSON object; the
    duration and the bit rate of its format part (0 when missing) convert
    to numbers; its stream list can be searched and holds a video stream;
    the width and the height of that stream (0 when missing) convert to
    ints; and [rate] is the string under [r_frame_rate]. *)
Definition reports_frame_rate (w : world) (video_path : string)
  (rate : text) : Prop :=
  exists info fmt d dv b bv streams items video_stream audio_stream
         wd wv ht hv,
    run w (cmd video_path) = Ok (Document info) /\
    Obj.get info "format" (JDict []) = Ok fmt /\
    Obj.get fmt "duration" (JInt 0) = Ok d /\
    Obj.to_float d = Ok dv /\
    Obj.get fmt "bit_rate" (JInt 0) = Ok b /\
    Obj.to_int b = Ok bv /\
    Obj.get info "streams" (JList []) = Ok streams /\
    Obj.iter streams = Ok items /\
    first_stream "video" items = Ok (Some video_stream) /\
    first_stream "audio" items = Ok audio_stream /\
    Obj.get video_stream "width" (JInt 0) = Ok wd /\
    Obj.to_int wd = Ok wv /\
    Obj.get video_stream "height" (JInt 0) = Ok ht /\
    Obj.to_int ht = Ok hv /\
    Obj.get video_stream "r_frame_rate" (JStr "0/1") = Ok (JStr rate).

(** A file name with the record extracted from it: [get_video_metadata]
    returned [snd fm] for the entry [fst fm] of [video_dir]. *)
Definition extracted (w : world) (video_dir : string)
  (fm : string * metadata) : Prop :=
  fst (get_video_metadata w (PosixPath.join video_dir (fst fm))) =
  Ok (snd fm).

(** The id of a file, line 154. *)
Definition vid_id (f : string) : string := fst (PosixPath.splitext f).

(** The line of the output file for such a pair. *)
Definition row_line (fm : string * metadata) : string :=
  Csv.line (row (vid_id (fst fm)) (snd fm)).

(** The six metadata columns of a record, in the order of the table. *)
Definition columns (m : metadata) : list scalar :=
  [duration m; width m; height m; fps m; has_audio m; bitrate m].

(** A field is absent or a number: not a str. *)
Definition absent_or_number (v : scalar) : Prop :=
  match v with
  | SStr _ => False
  | _ => True
  end.

(** The first stream entry of the given type in the probe's stream list,
    if there is one. *)
Definition first_entry (kind : string) (w : world) (video_path : string)
  : option json :=
  find (is_entry kind) (stream_list w video_path).

(** A field is absent or a float; absent or an int. *)
Definition float_or_absent (v : scalar) : Prop :=
  match v with
  | SNone | SFloat _ => True
  | _ => False
  end.

Definition int_or_absent (v : scalar) : Prop :=
  match v with
  | SNone | SInt _ => True
  | _ => False
  end.

(** What [get_video_metadata] logs for the entry [f] of [video_dir]. *)
Definition logged_for (w : world) (video_dir f : string) : list log_record :=
  snd (get_video_metadata w (PosixPath.join video_dir f)).

(** What a run of decimal digits adds to the digits read so far. *)
Fixpoint read_uint (d : Decimal.uint) (acc : Num.digits) : Num.digits :=
  match d with
  | Decimal.Nil => acc
  | Decimal.D0 l => read_uint l (Num.push acc 0)
  | Decimal.D1 l => read_uint l (Num.push acc 1)
  | Decimal.D2 l => read_uint l (Num.push acc 2)
  | Decimal.D3 l => read_uint l (Num.push acc 3)
  | Decimal.D4 l => read_uint l (Num.push acc 4)
  | Decimal.D5 l => read_uint l (Num.push acc 5)
  | Decimal.D6 l => read_uint l (Num.push acc 6)
  | Decimal.D7 l => read_uint l (Num.push acc 7)
  | Decimal.D8 l => read_uint l (Num.push acc 8)
  | Decimal.D9 l => read_uint l (Num.push acc 9)
  end.

(** The text has no white space. *)
Fixpoint no_space (s : string) : bool :=
  match s with
  | EmptyString => true
  | String c s' => negb (Num.isspace c) && no_space s'
  end.

(** ** Machines and documents for the examples *)

(** A machine with one directory, [video_dir], holding [entries]; every
    probe on it has the outcome [probe]; any file can be opened. *)
Definition machine (video_dir : string) (entries : list string)
  (probe : result stdout) : world :=
  {| node_at := fun p =>
       if String.eqb p video_dir then Some (Directory entries) else None;
     run := fun _ => probe;
     open_error := fun _ => None |}.

Definition video_entry (rate : text) : json :=
  JDict [("index", JInt 0); ("codec_type", JStr "video");
         ("width", JInt 1920); ("height", JInt 1080);
         ("r_frame_rate", JStr rate)].

Definition audio_entry : json :=
  JDict [("index", JInt 1); ("codec_type", JStr "audio")].

(** A document as the tool prints it: the stream list, then the format
    part with its duration and bit rate as strings. *)
Definition document (streams : list json) (duration_text : text) : json :=
  JDict [("streams", JList streams);
         ("format", JDict [("duration", JStr duration_text);
                           ("bit_rate", JStr "128000")])].

(** * Properties *)

(** ** Tactics *)

(** Splits the first call of a block on whether it returned or raised. *)
Ltac split_result H :=
  match type of H with
  | context [match ?r with Ok _ => _ | Raise _ => _ end] =>
      let E := fresh "E" in destruct r eqn:E
  | context [if ?b then _ else _] =>
      let E := fresh "E" in destruct b eqn:E
  end.

(** Splits every [match] of the goal on its scrutinee. *)
Ltac split_match :=
  repeat match goal with
         | |- context [match ?x with _ => _ end] => destruct x
         end.

(** ** Strings *)

Section StringFacts.

Local Open Scope nat_scope.

Lemma length_append (a b : string) :
  String.length (a ++ b) = String.length a + String.length b.
Proof. induction a as [| x a IH]; simpl; [reflexivity | now rewrite IH]. Qed.

Lemma take_drop (n : nat) (s : string) :
  (Str.take n s ++ Str.drop n s)%string = s.
Proof.
  revert s; induction n as [| n IH]; intros [| c s]; simpl; try reflexivity.
  now rewrite IH.
Qed.

Lemma take_append (a b : string) : Str.take (String.length a) (a ++ b) = a.
Proof. induction a as [| x a IH]; simpl; [now destruct b | now rewrite IH]. Qed.

Lemma drop_append (a b : string) : Str.drop (String.length a) (a ++ b) = b.
Proof. induction a as [| x a IH]; simpl; [now destruct b | exact IH]. Qed.

Lemma length_drop (n : nat) (s : string) :
  String.length (Str.drop n s) = String.length s - n.
Proof.
  revert s; induction n as [| n IH]; intros [| c s]; simpl; auto.
Qed.

Lemma drop_succ (n : nat) (s : string) (c : ascii) (rest : string) :
  Str.drop n s = String c rest -> Str.drop (S n) s = rest.
Proof.
  revert s; induction n as [| n IH]; intros [| x s] H; simpl in *;
    try discriminate.
  - now inversion H.
  - destruct s as [| y s]; [now destruct n | exact (IH _ H)].
Qed.

(** [endswith] says what it should: [suffix] is how [s] ends. *)
Lemma endswith_iff (s suffix : string) :
  Str.endswith s suffix = true <-> exists p, s = (p ++ suffix)%string.
Proof.
  unfold Str.endswith; split.
  - intros H. apply andb_true_iff in H as [_ H].
    apply String.eqb_eq in H.
    pose proof (take_drop (String.length s - String.length suffix) s) as E.
    rewrite H in E. eexists; symmetry; exact E.
  - intros [p ->]. rewrite length_append. apply andb_true_iff; split.
    + apply Nat.leb_le; lia.
    + replace (String.length p + String.length suffix - String.length suffix)
        with (String.length p) by lia.
      rewrite drop_append. apply String.eqb_refl.
Qed.

Lemma lower_append (a b : string) :
  Str.lower (a ++ b) = (Str.lower a ++ Str.lower b)%string.
Proof. induction a as [| x a IH]; simpl; [reflexivity | now rewrite IH]. Qed.

(** A lower-cased string splits where its original does. *)
Lemma lower_split (p q f : string) :
  Str.lower f = (p ++ q)%string ->
  exists a b, f = (a ++ b)%string /\ Str.lower a = p /\ Str.lower b = q.
Proof.
  revert f; induction p as [| x p IH]; intros f H.
  - exists EmptyString, f; auto.
  - destruct f as [| c f]; simpl in H; [discriminate |].
    inversion H as [[Hc Hf]]. destruct (IH _ Hf) as (a & b & -> & <- & <-).
    exists (String c a), b; auto.
Qed.

(** Lower-casing neither creates nor removes a [.]. *)
Lemma lower_char_dot (c : ascii) :
  Ascii.eqb (Str.lower_char c) "." = Ascii.eqb c ".".
Proof.
  destruct c as [b0 b1 b2 b3 b4 b5 b6 b7];
    destruct b0, b1, b2, b3, b4, b5, b6, b7; reflexivity.
Qed.

Lemma mem_lower_dot (s : string) : Str.mem "." (Str.lower s) = Str.mem "." s.
Proof.
  induction s as [| c s IH]; simpl; [reflexivity |].
  now rewrite lower_char_dot, IH.
Qed.

End StringFacts.

(** ** os.path.splitext on the names the filter keeps *)

Section SplitextFacts.

Lemma rfind_from_append (c : ascii) (a b : string) (i last : Z) :
  Str.rfind_from c (a ++ b) i last =
  Str.rfind_from c b (i + Str.len a) (Str.rfind_from c a i last).
Proof.
  revert i last; induction a as [| x a IH]; intros i last; simpl.
  - unfold Str.len; simpl. now rewrite Z.add_0_r.
  - rewrite IH. f_equal. unfold Str.len; simpl String.length. lia.
Qed.

Lemma rfind_from_absent (c : ascii) (s : string) (i last : Z) :
  Str.mem c s = false -> Str.rfind_from c s i last = last.
Proof.
  revert i last; induction s as [| x s IH]; intros i last H; simpl in *.
  - reflexivity.
  - apply orb_false_iff in H as [Hx Hs]. rewrite Hx. now apply IH.
Qed.

(** The loop over the leading dots finds a stem exactly when one of the
    characters it inspects is not a dot. *)
Lemma has_stem_spec (p : string) (steps j : nat) :
  (j + steps <= String.length p)%nat ->
  PosixPath.has_stem p (Z.of_nat j) steps =
  has_other_than_dot (Str.take steps (Str.drop j p)).
Proof.
  revert j; induction steps as [| k IH]; intros j Hlen; simpl.
  - reflexivity.
  - unfold Str.at_index. rewrite Nat2Z.id.
    destruct (Str.drop j p) as [| c rest] eqn:E.
    + pose proof (length_drop j p) as L. rewrite E in L. simpl in L. lia.
    + simpl. replace (Str.take 0 rest) with EmptyString by now destruct rest.
      replace (Z.of_nat j + 1) with (Z.of_nat (S j)) by lia.
      rewrite IH by lia. rewrite (drop_succ _ _ _ _ E).
      now destruct (Ascii.eqb c ".").
Qed.

(** On a name without [/] that ends in the video extension, [splitext]
    cuts the extension off when the stem has a character other than [.],
    and otherwise returns the name whole. *)
Lemma splitext_video (stem ext : string) :
  Str.lower ext = ".mp4" ->
  Str.mem "/" (stem ++ ext) = false ->
  fst (PosixPath.splitext (stem ++ ext)) =
  if has_other_than_dot stem then stem else (stem ++ ext)%string.
Proof.
  intros Hext Hsep.
  destruct ext as [| c0 rest]; [discriminate |].
  simpl in Hext. inversion Hext as [[Hc Hrest]].
  assert (c0 = "."%char) as ->.
  { apply Ascii.eqb_eq. rewrite <- lower_char_dot, Hc. reflexivity. }
  assert (Str.mem "." rest = false) as Hdot.
  { rewrite <- mem_lower_dot, Hrest. reflexivity. }
  assert (Str.rfind (stem ++ String "." rest) "/" = -1) as Hs.
  { unfold Str.rfind. now apply rfind_from_absent. }
  assert (Str.rfind (stem ++ String "." rest) "." =
          Z.of_nat (String.length stem)) as Hd.
  { unfold Str.rfind. rewrite rfind_from_append. cbn.
    rewrite rfind_from_absent by assumption. reflexivity. }
  unfold PosixPath.splitext. rewrite Hs, Hd.
  rewrite Nat2Z.id.
  replace (-1 + 1) with (Z.of_nat 0) by reflexivity.
  replace (Z.to_nat (Z.of_nat (String.length stem) - Z.of_nat 0))
    with (String.length stem) by lia.
  rewrite has_stem_spec by (rewrite length_append; simpl; lia).
  simpl Str.drop. rewrite take_append.
  assert ((-1 <? Z.of_nat (String.length stem)) = true) as ->
    by (apply Z.ltb_lt; lia).
  simpl andb. now destruct (has_other_than_dot stem).
Qed.

End SplitextFacts.

(** ** The try block *)

Section BlockFacts.

(** The first stream of a kind is one of the items, and is an entry of that
    kind; when there is none, no item is. *)
Lemma first_stream_some (kind : string) (items : list json) (s : json) :
  first_stream kind items = Ok (Some s) ->
  In s items /\ is_entry kind s = true /\ Obj.truthy s = true.
Proof.
  induction items as [| x items IH]; simpl; [discriminate |].
  destruct x as [| | | | | | d]; simpl; try discriminate.
  destruct (Obj.assoc "codec_type" d) as [t |] eqn:E.
  - destruct (Obj.eq_str t kind) eqn:Et.
    + intros H; inversion H; subst s. simpl. rewrite E, Et.
      repeat split; auto. now destruct d.
    + intros H. destruct (IH H) as (? & ? & ?). auto.
  - simpl. intros H. destruct (IH H) as (? & ? & ?). auto.
Qed.

Lemma first_stream_exists (kind : string) (items : list json)
  (found : option json) :
  first_stream kind items = Ok found ->
  existsb (is_entry kind) items =
  match found with Some _ => true | None => false end.
Proof.
  induction items as [| x items IH]; simpl.
  - intros H; now inversion H.
  - destruct x as [| | | | | | d]; simpl; try discriminate.
    destruct (Obj.assoc "codec_type" d) as [t |] eqn:E; simpl.
    + destruct (Obj.eq_str t kind) eqn:Et; simpl.
      * intros H; now inversion H.
      * exact IH.
    + exact IH.
Qed.

(** Only the items of a JSON array can be searched to the end: the keys of
    an object and the characters of a string have no [get]. *)
Lemma first_stream_items (kind : string) (streams : json)
  (items : list json) (found : option json) :
  Obj.iter streams = Ok items ->
  first_stream kind items = Ok found ->
  items = match streams with JList l => l | _ => [] end.
Proof.
  destruct streams as [| | | | s | l | d]; simpl; try discriminate;
    intros H; inversion H; subst items; clear H.
  - destruct s; simpl; [reflexivity | discriminate].
  - reflexivity.
  - destruct d; simpl; [reflexivity | discriminate].
Qed.

End BlockFacts.

Section TryBody.

Variables (w : world) (video_path : string).

(** An exception leaves [has_audio] as it was: the key is assigned by the
    last statement of the block. *)
Lemma raise_keeps_has_audio (m0 m : metadata) (e : exn) :
  try_body w video_path m0 = (m, Raise e) -> has_audio m = has_audio m0.
Proof.
  unfold try_body. cbv [seq eval store done]. intros H.
  repeat split_result H; inversion H; subst; reflexivity.
Qed.

(** What the search for the audio stream finds is what the stream list
    holds. *)
Lemma audio_search (o : stdout) (info streams : json) (items : list json)
  (found : option json) :
  run w (cmd video_path) = Ok o ->
  json_loads o = Ok info ->
  Obj.get info "streams" (JList []) = Ok streams ->
  Obj.iter streams = Ok items ->
  first_stream "audio" items = Ok found ->
  match found with
  | Some s => if Obj.truthy s then SInt 1 else SInt 0
  | None => SInt 0
  end = if audio_present w video_path then SInt 1 else SInt 0.
Proof.
  intros Hrun Hj Hs Hi Ha.
  destruct o as [| | | | doc]; simpl in Hj; try discriminate.
  inversion Hj; subst doc; clear Hj.
  destruct info as [| | | | | | d]; simpl in Hs; try discriminate.
  inversion Hs as [Hs']; clear Hs.
  pose proof (first_stream_items _ _ _ _ Hi Ha) as Hitems.
  assert (stream_list w video_path = items) as Hl.
  { unfold stream_list. rewrite Hrun, Hitems, <- Hs'.
    now destruct (Obj.assoc "streams" d). }
  unfold audio_present. rewrite Hl, (first_stream_exists _ _ _ Ha).
  destruct found as [s |]; [| reflexivity].
  destruct (first_stream_some _ _ _ Ha) as (_ & _ & ->). reflexivity.
Qed.

(** A block that runs to its end has stored whether an audio stream is
    present. *)
Lemma ok_sets_has_audio (m0 m : metadata) (u : unit) :
  try_body w video_path m0 = (m, Ok u) ->
  has_audio m = if audio_present w video_path then SInt 1 else SInt 0.
Proof.
  unfold try_body. cbv [seq eval store done]. intros H.
  repeat split_result H; try discriminate.
  all: inversion H; subst; clear H; simpl has_audio.
  all: eapply audio_search; eassumption.
Qed.

End TryBody.

Section FrameRate.

Variables (w : world) (video_path : string) (rate : text).
Hypothesis Hprobe : reports_frame_rate w video_path rate.

(** Once the frame rate is reached, the block ends as the computation of
    the rate does: the value is stored and [has_audio] is set, or the
    exception of the conversion stops the block with [fps] and [has_audio]
    still at their defaults. *)
Lemma try_body_at_rate :
  exists (m1 : metadata) (a : scalar),
    fps m1 = SNone /\ has_audio m1 = SInt 0 /\
    try_body w video_path defaults =
    match fps_of_parts (Text.split "/" rate) with
    | Ok v => (set_has_audio a (set_fps v m1), Ok tt)
    | Raise e => (m1, Raise e)
    end.
Proof.
  destruct Hprobe as
    (info & fmt & d & dv & b & bv & streams & items & vs & au & wd & wv & ht
     & hv & Hrun & Hfmt & Hd & Hdv & Hb & Hbv & Hst & Hit & Hv & Ha & Hwd
     & Hwv & Hht & Hhv & Hrate).
  destruct (first_stream_some _ _ _ Hv) as (_ & _ & Htruthy).
  eexists. eexists.
  unfold try_body. cbv [seq eval store done].
  rewrite Hrun; cbv beta iota. cbn [json_loads].
  rewrite Hfmt, Hd, Hdv, Hb, Hbv, Hst, Hit, Hv, Ha; cbv beta iota.
  rewrite Htruthy, Hwd, Hwv, Hht, Hhv, Hrate; cbv beta iota.
  cbn [Obj.split_slash].
  split; [| split].
  3: { destruct (fps_of_parts (Text.split "/" rate)); reflexivity. }
  all: reflexivity.
Qed.

End FrameRate.

(** ** Which exceptions leave get_video_metadata *)

Section Escapes.

(** [int] of a str raises nothing but [ValueError]. *)
Lemma int_of_str_raises (s : text) (e : exn) :
  Num.int_of_str s = Raise e -> e = ValueError.
Proof.
  unfold Num.int_of_str, Num.int_of_ascii.
  destruct (Num.sign (Num.strip (Num.ascii_form s))) as [neg body].
  destruct (Num.digitpart body) as [[ds [| c rest]] |];
    try (intros H; now inversion H).
  destruct (Num.max_str_digits <? Num.dcount ds);
    intros H; now inversion H.
Qed.

Lemma float_of_str_raises (s : text) (e : exn) :
  Num.float_of_str s = Raise e -> e = ValueError.
Proof.
  unfold Num.float_of_str, Num.float_of_ascii.
  split_match; intros H; now inversion H.
Qed.

Lemma float_of_int_raises (n : Z) (e : exn) :
  Num.float_of_int n = Raise e -> e = OverflowError.
Proof.
  unfold Num.float_of_int. split_match; intros H; now inversion H.
Qed.

Lemma int_of_float_raises (x : spec_float) (e : exn) :
  Num.int_of_float x = Raise e -> e = OverflowError \/ e = ValueError.
Proof.
  unfold Num.int_of_float. split_match; intros H; inversion H; auto.
Qed.

Lemma get_raises (o : json) (k : string) (d : json) (e : exn) :
  Obj.get o k d = Raise e -> e = AttributeError.
Proof. destruct o; simpl; intros H; now inversion H. Qed.

Lemma to_float_raises (o : json) (e : exn) :
  Obj.to_float o = Raise e ->
  e = TypeError \/ e = OverflowError \/ e = ValueError.
Proof.
  destruct o; simpl; intros H; try (inversion H; auto; fail).
  - apply float_of_int_raises in H; auto.
  - apply float_of_int_raises in H; auto.
  - apply float_of_str_raises in H; auto.
Qed.

Lemma to_int_raises (o : json) (e : exn) :
  Obj.to_int o = Raise e ->
  e = TypeError \/ e = OverflowError \/ e = ValueError.
Proof.
  destruct o; simpl; intros H; try (inversion H; auto; fail).
  - apply int_of_float_raises in H; tauto.
  - apply int_of_str_raises in H; auto.
Qed.

Lemma iter_raises (o : json) (e : exn) :
  Obj.iter o = Raise e -> e = TypeError.
Proof. destruct o; simpl; intros H; now inversion H. Qed.

Lemma split_slash_raises (o : json) (e : exn) :
  Obj.split_slash o = Raise e -> e = AttributeError.
Proof. destruct o; simpl; intros H; now inversion H. Qed.

Lemma json_loads_raises (o : stdout) (e : exn) :
  json_loads o = Raise e ->
  (o = Garbage /\ e = JSONDecodeError) \/
  (o = Undecodable /\ e = UnicodeDecodeError) \/
  (o = Oversized /\ e = ValueError) \/
  (o = TooDeep /\ e = RecursionError).
Proof. destruct o; simpl; intros H; inversion H; auto. Qed.

Lemma json_loads_document (o : stdout) (info : json) :
  json_loads o = Ok info -> o = Document info.
Proof. destruct o; simpl; intros H; now inversion H. Qed.

Lemma first_stream_raises (kind : string) (items : list json) (e : exn) :
  first_stream kind items = Raise e -> e = AttributeError.
Proof.
  induction items as [| s items IH]; simpl; [discriminate |].
  destruct (Obj.get s "codec_type" JNull) as [t | e'] eqn:E; simpl.
  - destruct (Obj.eq_str t kind); [discriminate | exact IH].
  - intros H; inversion H; subst. now apply get_raises in E.
Qed.

Lemma fps_of_parts_raises (parts : list text) (e : exn) :
  fps_of_parts parts = Raise e -> e = ValueError \/ e = OverflowError.
Proof.
  unfold fps_of_parts.
  destruct parts as [| num [| den [| x rest]]]; try discriminate.
  destruct (Num.int_of_str den) as [d | e1] eqn:Ed; simpl.
  - destruct (d =? 0) eqn:Hd; simpl; [discriminate |].
    destruct (Num.int_of_str num) as [n | e2] eqn:En; simpl.
    + destruct (Num.truediv n d) as [q | e3] eqn:Eq; simpl; [discriminate |].
      intros H; inversion H; subst.
      unfold Num.truediv in Eq. rewrite Hd in Eq.
      revert Eq. split_match; intros Eq; inversion Eq; auto.
    + intros H; inversion H; subst. apply int_of_str_raises in En; auto.
  - intros H; inversion H; subst. apply int_of_str_raises in Ed; auto.
Qed.

Ltac blame :=
  match goal with
  | E : Obj.get _ _ _ = Raise _ |- _ => apply get_raises in E
  | E : Obj.to_float _ = Raise _ |- _ => apply to_float_raises in E
  | E : Obj.to_int _ = Raise _ |- _ => apply to_int_raises in E
  | E : Obj.iter _ = Raise _ |- _ => apply iter_raises in E
  | E : Obj.split_slash _ = Raise _ |- _ => apply split_slash_raises in E
  | E : first_stream _ _ = Raise _ |- _ => apply first_stream_raises in E
  | E : fps_of_parts _ = Raise _ |- _ => apply fps_of_parts_raises in E
  end.

(** An exception that stops the block comes from the probe itself, from
    [json.loads], or is one of four classes raised by the conversions and
    lookups on the document. *)
Lemma try_body_raises (w : world) (video_path : string)
  (m0 m : metadata) (e : exn) :
  try_body w video_path m0 = (m, Raise e) ->
  run w (cmd video_path) = Raise e \/
  (exists o, run w (cmd video_path) = Ok o /\ json_loads o = Raise e) \/
  (exists info,
      run w (cmd video_path) = Ok (Document info) /\
      In e [ValueError; TypeError; AttributeError; OverflowError]).
Proof.
  unfold try_body. cbv [seq eval store done]. intros H.
  destruct (run w (cmd video_path)) as [o | e0] eqn:Hrun.
  2: { inversion H; subst. now left. }
  destruct (json_loads o) as [info | e0] eqn:Hj.
  2: { inversion H; subst. right; left. now exists o. }
  right; right. exists info.
  split; [now rewrite (json_loads_document _ _ Hj) |].
  cbv beta iota in H.
  repeat split_result H; inversion H; subst; clear H.
  all: blame; simpl; intuition (subst; auto).
Qed.

(** X1.  The exceptions that leave [get_video_metadata]: one the probe
    raised that is not a [CalledProcessError] (nor one of the other classes
    of the [except] clause); the [RecursionError] of [json.loads] on output
    nested too deep; or a [TypeError], [AttributeError] or [OverflowError]
    raised while reading the document.  Nothing is logged for them. *)
Lemma escaping_exceptions (w : world) (video_path : string) (e : exn)
  (logged : list log_record) :
  get_video_metadata w video_path = (Raise e, logged) ->
  logged = [] /\ caught e = false /\
  (run w (cmd video_path) = Raise e \/
   (run w (cmd video_path) = Ok TooDeep /\ e = RecursionError) \/
   (exists info,
       run w (cmd video_path) = Ok (Document info) /\
       (e = TypeError \/ e = AttributeError \/ e = OverflowError))).
Proof.
  unfold get_video_metadata.
  destruct (try_body w video_path defaults) as [m [u | e']] eqn:E;
    [discriminate |].
  destruct (caught e') eqn:Hc; intros H; inversion H; subst.
  split; [reflexivity |]. split; [exact Hc |].
  destruct (try_body_raises _ _ _ _ _ E)
    as [Hrun | [(o & Hrun & Hj) | (info & Hrun & Hin)]].
  - now left.
  - right; left.
    destruct (json_loads_raises _ _ Hj)
      as [[-> ->] | [[-> ->] | [[-> ->] | [-> ->]]]];
      try discriminate. auto.
  - right; right. exists info. split; [exact Hrun |].
    simpl in Hin.
    destruct Hin as [<- | [<- | [<- | [<- | []]]]];
      try discriminate; auto.
Qed.

End Escapes.

(** ** The shape of the fields *)

Section FieldFacts.

Lemma fps_of_parts_number (parts : list text) (v : scalar) :
  fps_of_parts parts = Ok v -> absent_or_number v.
Proof.
  unfold fps_of_parts.
  destruct parts as [| num [| den [| x rest]]];
    try (intros H; inversion H; exact I).
  destruct (Num.int_of_str den) as [d |]; simpl; [| discriminate].
  destruct (negb (d =? 0)); [| intros H; inversion H; exact I].
  destruct (Num.int_of_str num) as [n |]; simpl; [| discriminate].
  destruct (Num.truediv n d) as [q |]; simpl; [| discriminate].
  intros H; inversion H; exact I.
Qed.

Lemma try_body_numbers (w : world) (video_path : string)
  (m0 m : metadata) (r : result unit) :
  Forall absent_or_number (columns m0) ->
  try_body w video_path m0 = (m, r) ->
  Forall absent_or_number (columns m).
Proof.
  intros H0. unfold try_body. cbv [seq eval store done]. intros H.
  repeat split_result H; inversion H; subst; clear H.
  all: repeat match goal with
         | E : fps_of_parts _ = Ok _ |- _ => apply fps_of_parts_number in E
         end.
  all: unfold columns in *; simpl.
  all: repeat match goal with
         | H : Forall _ (_ :: _) |- _ => inversion H; subst; clear H
         end.
  all: repeat constructor; auto.
  all: match goal with
       | |- absent_or_number (match ?o with _ => _ end) =>
           destruct o as [s |]; [destruct (Obj.truthy s) |]; exact I
       end.
Qed.

Lemma returned_fields_numbers (w : world) (video_path : string)
  (m : metadata) :
  fst (get_video_metadata w video_path) = Ok m ->
  Forall absent_or_number (columns m).
Proof.
  unfold get_video_metadata.
  destruct (try_body w video_path defaults) as [m' r] eqn:E.
  assert (Forall absent_or_number (columns defaults)) as H0
    by (unfold columns; simpl; repeat constructor).
  pose proof (try_body_numbers _ _ _ _ _ H0 E) as Hm'.
  destruct r as [u | e]; simpl.
  - intros H; now inversion H; subst.
  - destruct (caught e); simpl; [| discriminate].
    intros H; now inversion H; subst.
Qed.

Lemma append_not_empty (a b : string) :
  b <> EmptyString -> (a ++ b)%string <> EmptyString.
Proof. destruct a; simpl; [auto | discriminate]. Qed.

Lemma of_int_not_empty (n : Z) : Repr.of_int n <> EmptyString.
Proof.
  unfold Repr.of_int, NilZero.string_of_int, NilZero.string_of_uint.
  destruct (Z.to_int n) as [d | d]; [| discriminate].
  destruct d; discriminate.
Qed.

Lemma layout_not_empty (ds : string) (decpt : Z) :
  Repr.layout ds decpt <> EmptyString.
Proof.
  unfold Repr.layout.
  destruct ((decpt <=? -4) || (16 <? decpt)).
  - apply append_not_empty, append_not_empty. discriminate.
  - destruct (decpt <=? 0); [discriminate |].
    destruct (Str.len ds <=? decpt).
    + apply append_not_empty, append_not_empty. discriminate.
    + apply append_not_empty. discriminate.
Qed.

Lemma of_float_not_empty (x : spec_float) : Repr.of_float x <> EmptyString.
Proof.
  destruct x as [s | s | | s m e].
  - destruct s; discriminate.
  - destruct s; discriminate.
  - discriminate.
  - unfold Repr.of_float.
    match goal with
    | |- context [Repr.shortest ?a ?b ?c ?d ?e ?f ?g] =>
        generalize (Repr.shortest a b c d e f g)
    end.
    intros [c k]. destruct (Repr.drop_zeros 400 c k) as [c' k'].
    apply append_not_empty, layout_not_empty.
Qed.

(** A cell is empty only for the absent value, among the values a column
    can hold. *)
Lemma empty_cell_iff_absent (v : scalar) :
  absent_or_number v ->
  (Csv.cell v = EmptyString <-> v = SNone).
Proof.
  intros Hv. split; [| intros ->; reflexivity].
  unfold Csv.cell.
  destruct (Csv.needs_quotes (Csv.text v)); [discriminate |].
  destruct v as [| n | x | s]; simpl; intros H.
  - reflexivity.
  - now apply of_int_not_empty in H.
  - now apply of_float_not_empty in H.
  - contradiction.
Qed.

End FieldFacts.

(** ** The loop over the files *)

Section LoopFacts.

Variables (w : world) (video_dir : string).

(** Every record returned has [has_audio] at 0 or 1. *)
Lemma has_audio_bit (video_path : string) (m : metadata) :
  fst (get_video_metadata w video_path) = Ok m ->
  has_audio m = SInt 0 \/ has_audio m = SInt 1.
Proof.
  unfold get_video_metadata.
  destruct (try_body w video_path defaults) as [m' [u | e]] eqn:E.
  - simpl. intros H; inversion H; subst m'.
    rewrite (ok_sets_has_audio _ _ _ _ _ E).
    destruct (audio_present w video_path); auto.
  - destruct (caught e); simpl; [| discriminate].
    intros H; inversion H; subst m'.
    rewrite (raise_keeps_has_audio _ _ _ _ _ E). auto.
Qed.

(** The records logged by [get_video_metadata] are about that file. *)
Lemma extraction_log (video_path : string) :
  forall r, In r (snd (get_video_metadata w video_path)) ->
  exists e, r = Error_processing video_path e.
Proof.
  unfold get_video_metadata.
  destruct (try_body w video_path defaults) as [m' [u | e]]; simpl.
  - contradiction.
  - destruct (caught e); simpl; [| contradiction].
    intros r [<- | []]. now exists e.
Qed.

(** The loop writes one line per file, in order, for as long as no
    exception leaves [get_video_metadata]; the first one that does ends it
    with the lines written so far. *)
Lemma write_rows_spec (files : list string) :
  forall lines logged r lines' logged',
  write_rows w video_dir files lines logged = (r, lines', logged') ->
  exists records rest,
    files = (map fst records ++ rest)%list /\
    lines' = (lines ++ map row_line records)%list /\
    Forall (extracted w video_dir) records /\
    match r with
    | Ok _ => rest = []
    | Raise e =>
        exists f rest', rest = f :: rest' /\
        fst (get_video_metadata w (PosixPath.join video_dir f)) = Raise e
    end.
Proof.
  induction files as [| f files IH]; intros lines logged r lines' logged' H.
  - simpl in H. inversion H; subst. exists [], []. simpl.
    rewrite app_nil_r. auto.
  - simpl in H.
    destruct (get_video_metadata w (PosixPath.join video_dir f))
      as [[meta | e] l] eqn:E.
    + destruct (IH _ _ _ _ _ H) as (records & rest & -> & -> & Hall & Hr).
      exists ((f, meta) :: records), rest. simpl.
      rewrite <- app_assoc. repeat split; auto.
      constructor; [| exact Hall]. unfold extracted. simpl. now rewrite E.
    + inversion H; subst. exists [], (f :: files). simpl.
      rewrite app_nil_r. repeat split; auto.
      exists f, files. now rewrite E.
Qed.

(** When every extraction returns, the loop returns too and has written a
    line for each file. *)
Lemma write_rows_all (files : list string) :
  (forall f, In f files ->
     exists m, fst (get_video_metadata w (PosixPath.join video_dir f)) = Ok m) ->
  forall lines logged, exists lines' logged',
    write_rows w video_dir files lines logged = (Ok tt, lines', logged') /\
    List.length lines' = (List.length lines + List.length files)%nat.
Proof.
  induction files as [| f files IH]; intros Hall lines logged; simpl.
  - exists lines, logged. split; [reflexivity | lia].
  - destruct (Hall f (or_introl eq_refl)) as [m Hm].
    destruct (get_video_metadata w (PosixPath.join video_dir f))
      as [[meta | e] l]; simpl in Hm; [| discriminate].
    destruct (IH (fun g Hg => Hall g (or_intror Hg))
                 (lines ++ [Csv.line (row (fst (PosixPath.splitext f)) meta)])%list
                 (logged ++ l)%list) as (lines' & logged' & -> & Hlen).
    exists lines', logged'. split; [reflexivity |].
    rewrite Hlen, length_app. simpl. lia.
Qed.

End LoopFacts.

(** ** What a run writes *)

Section RunFacts.

Variables (w : world) (video_dir output_csv : string).

(** Whenever the output file was opened it holds the header line followed
    by the lines of the files processed, which are the matching entries of
    the directory, in order, up to the first whose extraction raised. *)
Lemma process_videos_written (lines : list string) :
  written (process_videos w video_dir output_csv) = Some lines ->
  exists entries records rest,
    node_at w video_dir = Some (Directory entries) /\
    filter is_mp4 entries = (map fst records ++ rest)%list /\
    lines = Csv.line header :: map row_line records /\
    Forall (extracted w video_dir) records /\
    (ending (process_videos w video_dir output_csv) = Ok tt -> rest = []).
Proof.
  unfold process_videos, os_path_exists, os_listdir.
  destruct (node_at w video_dir) as [[| entries |] |]; simpl;
    try discriminate.
  destruct (open_error w output_csv); simpl; [discriminate |].
  destruct (write_rows w video_dir (filter is_mp4 entries) [Csv.line header]
              [Info_found (Z.of_nat (List.length (filter is_mp4 entries)))
                 video_dir])
    as [[r lines'] logged] eqn:E.
  intros Hw.
  destruct (write_rows_spec _ _ _ _ _ _ _ _ E)
    as (records & rest & Hfiles & Hlines & Hall & Hr).
  exists entries, records, rest.
  destruct r as [u | e]; simpl in *; inversion Hw; subst;
    repeat split; auto.
  intros; discriminate.
Qed.

End RunFacts.

(** The filter keeps the names that end in the video extension. *)
Lemma is_mp4_iff (f : string) :
  is_mp4 f = true <-> ends_in_video_extension f.
Proof.
  unfold is_mp4, ends_in_video_extension. rewrite endswith_iff. split.
  - intros [p Hp]. destruct (lower_split _ _ _ Hp) as (a & b & -> & _ & Hb).
    now exists a, b.
  - intros (stem & ext & -> & Hext). exists (Str.lower stem).
    now rewrite lower_append, Hext.
Qed.

(** The loop logs nothing about a missing directory. *)
Lemma write_rows_log (w : world) (video_dir : string) (files : list string) :
  forall lines logged r lines' logged' d,
  write_rows w video_dir files lines logged = (r, lines', logged') ->
  In (Error_no_directory d) logged' -> In (Error_no_directory d) logged.
Proof.
  induction files as [| f files IH]; intros lines logged r lines' logged' d H.
  - simpl in H. now inversion H.
  - simpl in H.
    pose proof (extraction_log w (PosixPath.join video_dir f)) as Hlog.
    destruct (get_video_metadata w (PosixPath.join video_dir f))
      as [[meta | e] l]; simpl in Hlog.
    + intros Hin. apply (IH _ _ _ _ _ _ H) in Hin.
      apply in_app_or in Hin as [Hin | Hin]; [exact Hin |].
      destruct (Hlog _ Hin) as [e He]. discriminate.
    + inversion H; subst. intros Hin.
      apply in_app_or in Hin as [Hin | Hin]; [exact Hin |].
      destruct (Hlog _ Hin) as [e' He]. discriminate.
Qed.

(** The error of the missing directory is logged only when nothing has the
    name [video_dir]. *)
Lemma no_directory_error_only_when_missing
  (w : world) (video_dir output_csv d : string) :
  In (Error_no_directory d) (log (process_videos w video_dir output_csv)) ->
  node_at w video_dir = None.
Proof.
  unfold process_videos, os_path_exists, os_listdir.
  destruct (node_at w video_dir) as [[| entries |] |]; simpl; auto;
    try contradiction.
  destruct (open_error w output_csv); simpl.
  - intros [H | []]; discriminate.
  - destruct (write_rows w video_dir (filter is_mp4 entries) [Csv.line header]
                [Info_found (Z.of_nat (List.length (filter is_mp4 entries)))
                   video_dir])
      as [[r lines'] logged] eqn:E.
    assert (In (Error_no_directory d) logged -> False) as Hno.
    { intros Hin. apply (write_rows_log _ _ _ _ _ _ _ _ _ E) in Hin.
      destruct Hin as [Hin | []]; discriminate. }
    destruct r; simpl; intros Hin.
    + apply in_app_or in Hin as [Hin | [Hin | []]];
        [now apply Hno in Hin | discriminate].
    + now apply Hno in Hin.
Qed.

(** ** Containment of extraction errors *)

(** A probe that exits with a non-zero status is contained: the defaults
    are returned and the error is logged. *)
Lemma nonzero_exit_contained (w : world) (video_path : string) :
  run w (cmd video_path) = Raise CalledProcessError ->
  get_video_metadata w video_path =
  (Ok defaults, [Error_processing video_path CalledProcessError]).
Proof.
  intros H. unfold get_video_metadata, try_body.
  cbv [seq eval]. now rewrite H.
Qed.

(** So is output that is not a JSON document. *)
Lemma garbage_contained (w : world) (video_path : string) :
  run w (cmd video_path) = Ok Garbage ->
  get_video_metadata w video_path =
  (Ok defaults, [Error_processing video_path JSONDecodeError]).
Proof.
  intros H. unfold get_video_metadata, try_body.
  cbv [seq eval]. now rewrite H.
Qed.

(** A document of an unexpected shape is not: with a null duration,
    [float] raises [TypeError], which the [except] clause does not name. *)
Lemma null_duration_escapes :
  let info := JDict [("format", JDict [("duration", JNull)])] in
  let w := machine "/videos" ["a.mp4"] (Ok (Document info)) in
  get_video_metadata w "/videos/a.mp4" = (Raise TypeError, []).
Proof. reflexivity. Qed.

(** C1 (the code departs from the claim).  When the probing tool is not
    installed, [subprocess.check_output] raises [FileNotFoundError]; the
    [except] clause of [get_video_metadata] does not name that class, so the
    exception leaves the function: no record is returned and nothing is
    logged, whatever the path. *)
Theorem tool_not_found_escapes
  (nodes : string -> option node) (opens : string -> option exn)
  (video_path : string) :
  get_video_metadata
    {| node_at := nodes;
       run := fun _ => Raise FileNotFoundError;
       open_error := opens |}
    video_path
  = (Raise FileNotFoundError, []).
Proof. reflexivity. Qed.

(** C2 (the code departs from the claim).  On a directory with two
    matching files and no probing tool, the first extraction raises, the
    loop ends and the run stops with the exception: the output file holds
    the header and no data row, where two entries match the filter. *)
Theorem batch_stops_when_tool_missing :
  let w := machine "/videos" ["a.mp4"; "b.mp4"] (Raise FileNotFoundError) in
  List.length (filter is_mp4 ["a.mp4"; "b.mp4"]) = 2%nat /\
  process_videos w "/videos" "out.csv" =
  {| ending := Raise FileNotFoundError;
     log := [Info_found 2 "/videos"];
     written := Some [Csv.line header] |}.
Proof. split; reflexivity. Qed.

(** When the directory is listed, the output file is opened and no
    exception leaves [get_video_metadata], the run returns and the output
    file has the header and one line per matching entry. *)
Lemma one_row_per_file_when_contained
  (w : world) (video_dir output_csv : string) (entries : list string) :
  node_at w video_dir = Some (Directory entries) ->
  open_error w output_csv = None ->
  (forall f, In f (filter is_mp4 entries) ->
     exists m,
       fst (get_video_metadata w (PosixPath.join video_dir f)) = Ok m) ->
  exists lines,
    written (process_videos w video_dir output_csv) = Some lines /\
    ending (process_videos w video_dir output_csv) = Ok tt /\
    List.length lines = S (List.length (filter is_mp4 entries)).
Proof.
  intros Hdir Hopen Hall. unfold process_videos, os_path_exists, os_listdir.
  rewrite Hdir, Hopen. simpl negb. cbv iota.
  destruct (write_rows_all w video_dir _ Hall [Csv.line header]
              [Info_found (Z.of_nat (List.length (filter is_mp4 entries)))
                 video_dir])
    as (lines & logged & -> & Hlen).
  exists lines. simpl. auto.
Qed.

(** ** The frame rate *)

(** C3 (as stated, refuted).  The frame-rate string [30/x] splits into
    exactly two parts and its denominator is not a number; the claim puts
    it among the cases where fps is 0 and, for those, the code leaves
    fps absent: the [ValueError] of the conversion is caught by the [except]
    clause before anything is stored under [fps]. *)
Lemma malformed_rate_leaves_fps_absent :
  let info := document [video_entry "30/x"; audio_entry] "12.5" in
  let w := machine "/videos" ["a.mp4"] (Ok (Document info)) in
  Text.split "/" "30/x" = [Text.of_string "30"; Text.of_string "x"] /\
  exists m,
    get_video_metadata w "/videos/a.mp4" =
      (Ok m, [Error_processing "/videos/a.mp4" ValueError]) /\
    fps m = SNone /\ fps m <> SInt 0.
Proof.
  split; [reflexivity |]. eexists. split; [reflexivity |].
  split; [reflexivity | discriminate].
Qed.

(** C3 (amended).  For a well-formed probe whose video stream reports the
    frame-rate string [rate], any str, split on [/], an integer literal
    being a text that [int] converts (decimal digits of any script, with an
    optional sign, single underscores between digits and white space
    around them, 4300 digits at most):
    - two parts that are integer literals, the second one not zero, with a
      quotient in the range of a float: fps = round(numerator /
      denominator, 2), and the record is returned without an error;
    - not exactly two parts, or a denominator that is the integer zero:
      fps = 0, and the record is returned without an error;
    - two parts of which the denominator is no integer literal, or the
      denominator is a nonzero integer and the numerator is no integer
      literal: the [ValueError] is contained and logged, the record is
      returned with fps absent and has_audio = 0. *)
Theorem frame_rate_cases (w : world) (video_path : string) (rate : text) :
  reports_frame_rate w video_path rate ->
  let parts := Text.split "/" rate in
  (forall num den n d q,
      parts = [num; den] ->
      Num.int_of_str den = Ok d -> d <> 0 ->
      Num.int_of_str num = Ok n ->
      Num.truediv n d = Ok q ->
      exists m,
        get_video_metadata w video_path = (Ok m, []) /\
        fps m = SFloat (Num.round q 2)) /\
  (List.length parts <> 2%nat \/
   (exists num den, parts = [num; den] /\ Num.int_of_str den = Ok 0) ->
   exists m,
     get_video_metadata w video_path = (Ok m, []) /\ fps m = SInt 0) /\
  (forall num den,
      parts = [num; den] ->
      Num.int_of_str den = Raise ValueError \/
      (exists d, Num.int_of_str den = Ok d /\ d <> 0 /\
                 Num.int_of_str num = Raise ValueError) ->
      exists m,
        get_video_metadata w video_path =
          (Ok m, [Error_processing video_path ValueError]) /\
        fps m = SNone /\ has_audio m = SInt 0).
Proof.
  intros Hprobe parts.
  destruct (try_body_at_rate _ _ _ Hprobe) as (m1 & a & Hfps & Haud & Hbody).
  fold parts in Hbody. unfold get_video_metadata. rewrite Hbody.
  clear Hbody. unfold fps_of_parts.
  split; [| split].
  - intros num den n d q -> Hd Hnz Hn Hq.
    rewrite Hd. cbn [and_then].
    assert ((d =? 0) = false) as -> by now apply Z.eqb_neq.
    cbn [negb]. rewrite Hn. cbn [and_then]. rewrite Hq.
    eexists; split; reflexivity.
  - intros [Hlen | (num & den & -> & Hd)].
    + destruct parts as [| x [| y [| z rest]]];
        try (eexists; split; reflexivity).
      now contradiction Hlen.
    + rewrite Hd. eexists; split; reflexivity.
  - intros num den -> [Hd | (d & Hd & Hnz & Hn)].
    + rewrite Hd. cbn. eexists; repeat split; assumption.
    + rewrite Hd. cbn [and_then].
      assert ((d =? 0) = false) as -> by now apply Z.eqb_neq.
      cbn [negb]. rewrite Hn. cbn. eexists; repeat split; assumption.
Qed.

Lemma frame_rate_cases_witness :
  let w :=
    machine "/videos" ["a.mp4"]
      (Ok (Document (document [video_entry "24000/1001"; audio_entry] "12.5")))
  in
  reports_frame_rate w "/videos/a.mp4" "24000/1001" /\
  exists m,
    get_video_metadata w "/videos/a.mp4" = (Ok m, []) /\
    fps m = SFloat (Num.round (Num.nearest_ratio false 24000 1001) 2).
Proof.
  intros w.
  assert (reports_frame_rate w "/videos/a.mp4" "24000/1001") as Hprobe.
  { unfold reports_frame_rate. do 14 eexists. repeat split; reflexivity. }
  split; [exact Hprobe |].
  apply (proj1 (frame_rate_cases w "/videos/a.mp4" "24000/1001" Hprobe)
           "24000" "1001" 24000 1001);
    [reflexivity | reflexivity | discriminate | reflexivity | reflexivity].
Defined.

(** What [int] and [float] take for a number: digits of any script, and
    around them the white space of the C locale and of Unicode beyond
    ASCII, which leaves out the separators U+001C to U+001F. *)
Lemma conversions_of_unusual_texts :
  Num.int_of_str [0xFF13; 0xFF10]%N = Ok 30 /\
  Num.int_of_str [0xA0; 0x2D; 0x31; 0x5F; 0x660; 0x3000]%N = Ok (-10) /\
  Num.int_of_str [0x1F; 0x31]%N = Raise ValueError /\
  Num.int_of_str [0x31; 0x1C; 0xA0]%N = Raise ValueError /\
  Num.float_of_str (0x1F :: Text.of_string "12.5")%N = Raise ValueError /\
  Num.float_of_str (0x85 :: Text.of_string "12.5")%N =
    Num.float_of_str "12.5".
Proof. vm_compute. repeat split; reflexivity. Qed.

(** A rate padded with such a separator is no pair of integer literals:
    its [ValueError] is contained and fps stays absent. *)
Lemma separator_padded_rate :
  let rate := (Text.of_string "30/" ++ [0x1F; 0x31]%N)%list in
  let info := document [video_entry rate; audio_entry] "12.5" in
  let w := machine "/videos" ["a.mp4"] (Ok (Document info)) in
  exists m,
    get_video_metadata w "/videos/a.mp4" =
      (Ok m, [Error_processing "/videos/a.mp4" ValueError]) /\
    fps m = SNone.
Proof. eexists. split; reflexivity. Qed.

(** A rate whose quotient is beyond the range of a float: the division
    raises [OverflowError], which the [except] clause does not name. *)
Lemma huge_rate_escapes :
  let rate := ("1" ++ Str.repeat "0" 400 ++ "/1")%string in
  let w :=
    machine "/videos" ["a.mp4"]
      (Ok (Document (document [video_entry rate; audio_entry] "12.5"))) in
  get_video_metadata w "/videos/a.mp4" = (Raise OverflowError, []).
Proof. vm_compute. reflexivity. Qed.

(** ** The NTSC frame rate *)

(** C4.  For a well-formed probe whose video stream reports the frame-rate
    string [30000/1001], the record is returned without an error and its
    fps is round(30000 / 1001, 2); that float is the one the literal
    [29.97] denotes, and the one written as [29.97] in the table. *)
Theorem ntsc_rate_is_29_97 (w : world) (video_path : string) :
  reports_frame_rate w video_path "30000/1001" ->
  exists m q,
    get_video_metadata w video_path = (Ok m, []) /\
    Num.truediv 30000 1001 = Ok q /\
    fps m = SFloat (Num.round q 2) /\
    Num.float_of_str "29.97" = Ok (Num.round q 2) /\
    Csv.cell (fps m) = "29.97".
Proof.
  intros Hprobe.
  destruct (try_body_at_rate _ _ _ Hprobe) as (m1 & a & _ & _ & Hbody).
  unfold get_video_metadata. rewrite Hbody.
  replace (fps_of_parts (Text.split "/" "30000/1001"))
    with (Ok (SFloat (Num.round (Num.nearest_ratio false 30000 1001) 2)))
    by (vm_compute; reflexivity).
  eexists. exists (Num.nearest_ratio false 30000 1001).
  split; [reflexivity |]. split; [vm_compute; reflexivity |].
  split; [reflexivity |]. split; vm_compute; reflexivity.
Qed.

Lemma ntsc_rate_is_29_97_witness :
  let w :=
    machine "/videos" ["a.mp4"]
      (Ok (Document (document [video_entry "30000/1001"; audio_entry] "12.5")))
  in
  reports_frame_rate w "/videos/a.mp4" "30000/1001" /\
  exists m q,
    get_video_metadata w "/videos/a.mp4" = (Ok m, []) /\
    Num.truediv 30000 1001 = Ok q /\
    fps m = SFloat (Num.round q 2) /\
    Num.float_of_str "29.97" = Ok (Num.round q 2) /\
    Csv.cell (fps m) = "29.97".
Proof.
  intros w.
  assert (reports_frame_rate w "/videos/a.mp4" "30000/1001") as Hprobe.
  { unfold reports_frame_rate. do 14 eexists. repeat split; reflexivity. }
  split; [exact Hprobe |].
  exact (ntsc_rate_is_29_97 w "/videos/a.mp4" Hprobe).
Defined.

(** ** The audio flag *)

(** C5 (as stated, refuted).  The probe lists an audio stream, but the
    duration of the format part is the text [N/A]: [float] raises
    [ValueError] before the last statement of the block is reached, the
    error is contained, and the record is returned with has_audio = 0
    although an audio stream entry is present. *)
Lemma audio_present_but_flag_zero :
  let info := document [video_entry "30/1"; audio_entry] "N/A" in
  let w := machine "/videos" ["a.mp4"] (Ok (Document info)) in
  audio_present w "/videos/a.mp4" = true /\
  exists m,
    get_video_metadata w "/videos/a.mp4" =
      (Ok m, [Error_processing "/videos/a.mp4" ValueError]) /\
    has_audio m = SInt 0.
Proof.
  split; [reflexivity |]. eexists. split; reflexivity.
Qed.

(** C5 (amended).  In every record [get_video_metadata] returns, has_audio
    is 0 or 1, never absent.  When the block ran to its end (nothing was
    logged), it is 1 exactly when an audio stream entry is present in the
    probe's stream list; when an error was contained (it was logged), it
    is 0. *)
Theorem has_audio_flag (w : world) (video_path : string) (m : metadata)
  (logged : list log_record) :
  get_video_metadata w video_path = (Ok m, logged) ->
  (has_audio m = SInt 0 \/ has_audio m = SInt 1) /\
  (logged = [] ->
   (has_audio m = SInt 1 <-> audio_present w video_path = true)) /\
  (logged <> [] -> has_audio m = SInt 0).
Proof.
  intros H. split.
  - apply (has_audio_bit w video_path). now rewrite H.
  - revert H. unfold get_video_metadata.
    destruct (try_body w video_path defaults) as [m' [u | e]] eqn:E.
    + intros H; inversion H; subst m' logged. split.
      * intros _. rewrite (ok_sets_has_audio _ _ _ _ _ E).
        destruct (audio_present w video_path); split;
          intros; try reflexivity; discriminate.
      * intros Hne. now contradiction Hne.
    + destruct (caught e); intros H; inversion H; subst m' logged. split.
      * discriminate.
      * intros _. exact (raise_keeps_has_audio _ _ _ _ _ E).
Qed.

Lemma has_audio_flag_witness :
  let info := document [video_entry "30/1"; audio_entry] "12.5" in
  let w := machine "/videos" ["a.mp4"] (Ok (Document info)) in
  exists m,
    get_video_metadata w "/videos/a.mp4" = (Ok m, []) /\
    (has_audio m = SInt 1 <-> audio_present w "/videos/a.mp4" = true).
Proof.
  intros info w. eexists. split; [reflexivity |].
  exact (proj1 (proj2 (has_audio_flag w "/videos/a.mp4" _ [] eq_refl))
           eq_refl).
Defined.

(** ** A missing input directory *)

(** C6.  When nothing has the name [video_dir], [process_videos] logs the
    error and returns: no exception, and the output file is not opened, so
    neither created nor written. *)
Theorem missing_directory_is_a_no_op
  (w : world) (video_dir output_csv : string) :
  node_at w video_dir = None ->
  process_videos w video_dir output_csv =
  {| ending := Ok tt;
     log := [Error_no_directory video_dir];
     written := None |}.
Proof.
  intros H. unfold process_videos, os_path_exists. now rewrite H.
Qed.

Lemma missing_directory_is_a_no_op_witness :
  let w := machine "/videos" ["a.mp4"] (Ok Garbage) in
  node_at w "/nowhere" = None /\
  process_videos w "/nowhere" "out.csv" =
  {| ending := Ok tt;
     log := [Error_no_directory "/nowhere"];
     written := None |}.
Proof.
  intros w. split; [reflexivity |].
  apply (missing_directory_is_a_no_op w "/nowhere" "out.csv"). reflexivity.
Defined.

(** ** Selection of the files and their ids *)

(** C7 (as stated, refuted).  The entry [.mp4] ends in the video extension
    and is selected, but its row id is the whole name [.mp4], not the name
    minus its four-character extension (the empty string): [splitext]
    treats leading dots as part of the stem. *)
Lemma dot_mp4_keeps_its_name :
  let w := machine "/videos" [".mp4"] (Ok Garbage) in
  is_mp4 ".mp4" = true /\
  Str.take (String.length ".mp4" - 4) ".mp4" = EmptyString /\
  vid_id ".mp4" = ".mp4" /\
  written (process_videos w "/videos" "out.csv") =
    Some [Csv.line header; Csv.line (row ".mp4" defaults)].
Proof. repeat split; reflexivity. Qed.

(** C7 (amended).  For a directory with the given entries:
    - the files processed are exactly the entries whose name ends in the
      video extension, whatever the case of its letters;
    - a run that returns has written, after the header, one row per such
      entry, in the order of the listing, whose first field is the id of
      the entry;
    - the id of such an entry, whose name has no [/], is its name minus
      the extension when the name has a character other than [.] before the
      extension, and its whole name otherwise;
    - with the entries [clip_1.mp4], [CLIP_2.MP4] and [notes.txt], a run
      that returns has written exactly two rows, with ids [clip_1] and
      [CLIP_2]. *)
Theorem selection_and_ids
  (w : world) (video_dir output_csv : string) (entries : list string) :
  node_at w video_dir = Some (Directory entries) ->
  (forall f,
      In f (filter is_mp4 entries) <->
      In f entries /\ ends_in_video_extension f) /\
  (forall lines,
      written (process_videos w video_dir output_csv) = Some lines ->
      ending (process_videos w video_dir output_csv) = Ok tt ->
      exists records,
        map fst records = filter is_mp4 entries /\
        Forall (extracted w video_dir) records /\
        lines =
          Csv.line header ::
          map (fun fm => Csv.line (row (vid_id (fst fm)) (snd fm))) records) /\
  (forall stem ext,
      Str.lower ext = ".mp4" ->
      Str.mem "/" (stem ++ ext) = false ->
      (has_other_than_dot stem = true -> vid_id (stem ++ ext) = stem) /\
      (has_other_than_dot stem = false ->
       vid_id (stem ++ ext) = (stem ++ ext)%string)) /\
  (entries = ["clip_1.mp4"; "CLIP_2.MP4"; "notes.txt"] ->
   forall lines,
     written (process_videos w video_dir output_csv) = Some lines ->
     ending (process_videos w video_dir output_csv) = Ok tt ->
     exists m1 m2,
       lines = [Csv.line header; Csv.line (row "clip_1" m1);
                Csv.line (row "CLIP_2" m2)]).
Proof.
  intros Hdir.
  assert (forall lines,
      written (process_videos w video_dir output_csv) = Some lines ->
      ending (process_videos w video_dir output_csv) = Ok tt ->
      exists records,
        map fst records = filter is_mp4 entries /\
        Forall (extracted w video_dir) records /\
        lines = Csv.line header :: map row_line records) as Hrows.
  { intros lines Hw Hend.
    destruct (process_videos_written _ _ _ _ Hw)
      as (entries' & records & rest & Hdir' & Hfiles & -> & Hall & Hrest).
    rewrite Hdir in Hdir'. inversion Hdir'; subst entries'.
    rewrite (Hrest Hend), app_nil_r in Hfiles.
    exists records. auto. }
  split; [| split; [| split]].
  - intros f. rewrite filter_In, is_mp4_iff. reflexivity.
  - exact Hrows.
  - intros stem ext Hext Hsep. unfold vid_id.
    rewrite (splitext_video _ _ Hext Hsep).
    split; intros ->; reflexivity.
  - intros -> lines Hw Hend.
    destruct (Hrows lines Hw Hend) as (records & Hfiles & _ & ->).
    destruct records as [| [f1 m1] [| [f2 m2] [| r3 records]]];
      try discriminate.
    simpl in Hfiles. inversion Hfiles; subst f1 f2.
    exists m1, m2. reflexivity.
Qed.

Lemma selection_and_ids_witness :
  let w :=
    machine "/videos" ["clip_1.mp4"; "CLIP_2.MP4"; "notes.txt"] (Ok Garbage)
  in
  node_at w "/videos" =
    Some (Directory ["clip_1.mp4"; "CLIP_2.MP4"; "notes.txt"]) /\
  exists m1 m2,
    written (process_videos w "/videos" "out.csv") =
    Some [Csv.line header; Csv.line (row "clip_1" m1);
          Csv.line (row "CLIP_2" m2)].
Proof.
  intros w. split; [reflexivity |].
  destruct (proj2 (proj2 (proj2
              (selection_and_ids w "/videos" "out.csv" _ eq_refl)))
              eq_refl _ eq_refl eq_refl) as (m1 & m2 & H).
  exists m1, m2. rewrite <- H. reflexivity.
Defined.

(** ** The cells of the table *)

(** C8.  Every line of the output file after the header is the row of a
    record returned by [get_video_metadata]: the cell of the id followed by
    the cells of the six columns, separated by commas.  In it, every column
    that holds the absent value is written as the empty cell, not as [0]
    (and only such a column is written as the empty cell), and the
    has_audio cell is [0] or [1]. *)
Theorem absent_fields_are_empty_cells
  (w : world) (video_dir output_csv : string) (lines : list string) :
  written (process_videos w video_dir output_csv) = Some lines ->
  Forall
    (fun ln =>
       exists fm,
         extracted w video_dir fm /\
         ln = (Str.join ","
                 (Csv.cell (SStr (vid_id (fst fm))) ::
                  map Csv.cell (columns (snd fm)))
               ++ Csv.lineterminator)%string /\
         Forall (fun v => (v = SNone -> Csv.cell v <> "0") /\
                          (v = SNone <-> Csv.cell v = EmptyString))
                (columns (snd fm)) /\
         (Csv.cell (has_audio (snd fm)) = "0" \/
          Csv.cell (has_audio (snd fm)) = "1"))
    (tl lines).
Proof.
  intros Hw.
  destruct (process_videos_written _ _ _ _ Hw)
    as (entries & records & rest & _ & _ & -> & Hall & _).
  simpl tl. apply Forall_forall. intros ln Hin.
  apply in_map_iff in Hin as (fm & <- & Hfm).
  rewrite Forall_forall in Hall. pose proof (Hall fm Hfm) as Hex.
  exists fm. split; [exact Hex |]. split; [reflexivity |]. split.
  - pose proof (returned_fields_numbers w _ _ Hex) as Hnum.
    rewrite Forall_forall in Hnum. apply Forall_forall. intros v Hv. split.
    + intros ->. discriminate.
    + symmetry. apply empty_cell_iff_absent, Hnum, Hv.
  - destruct (has_audio_bit w _ _ Hex) as [-> | ->]; [left | right];
      reflexivity.
Qed.

Lemma absent_fields_are_empty_cells_witness :
  let w := machine "/videos" ["a.mp4"] (Raise CalledProcessError) in
  written (process_videos w "/videos" "out.csv") =
    Some [Csv.line header; Csv.line (row "a" defaults)] /\
  Forall
    (fun ln =>
       exists fm,
         extracted w "/videos" fm /\
         ln = (Str.join ","
                 (Csv.cell (SStr (vid_id (fst fm))) ::
                  map Csv.cell (columns (snd fm)))
               ++ Csv.lineterminator)%string /\
         Forall (fun v => (v = SNone -> Csv.cell v <> "0") /\
                          (v = SNone <-> Csv.cell v = EmptyString))
                (columns (snd fm)) /\
         (Csv.cell (has_audio (snd fm)) = "0" \/
          Csv.cell (has_audio (snd fm)) = "1"))
    [Csv.line (row "a" defaults)].
Proof.
  intros w. split; [reflexivity |].
  exact (absent_fields_are_empty_cells w "/videos" "out.csv" _ eq_refl).
Defined.

(** ** The header and the order of the columns *)

(** C9.  Whenever the output file was opened, its first line is exactly
    the header [Id,duration,width,height,fps,has_audio,bitrate] and every
    later line is the row of a record returned by [get_video_metadata]:
    the id of the file, then its duration, width, height, fps, has_audio
    and bitrate, in that order. *)
Theorem header_then_rows
  (w : world) (video_dir output_csv : string) (lines : list string) :
  written (process_videos w video_dir output_csv) = Some lines ->
  exists records,
    Forall (extracted w video_dir) records /\
    lines =
      ("Id,duration,width,height,fps,has_audio,bitrate"
       ++ Csv.lineterminator)%string ::
      map (fun fm =>
             let m := snd fm in
             (Str.join ","
                [Csv.cell (SStr (vid_id (fst fm)));
                 Csv.cell (duration m); Csv.cell (width m);
                 Csv.cell (height m); Csv.cell (fps m);
                 Csv.cell (has_audio m); Csv.cell (bitrate m)]
              ++ Csv.lineterminator)%string)
          records.
Proof.
  intros Hw.
  destruct (process_videos_written _ _ _ _ Hw)
    as (entries & records & rest & _ & _ & -> & Hall & _).
  exists records. split; [exact Hall | reflexivity].
Qed.

Lemma header_then_rows_witness :
  let info := document [video_entry "30/1"; audio_entry] "12.5" in
  let w := machine "/videos" ["a.mp4"; "notes.txt"] (Ok (Document info)) in
  written (process_videos w "/videos" "out.csv") =
    Some [("Id,duration,width,height,fps,has_audio,bitrate"
           ++ Csv.lineterminator)%string;
          ("a,12.5,1920,1080,30.0,1,128000" ++ Csv.lineterminator)%string] /\
  exists records,
    Forall (extracted w "/videos") records /\
    [("Id,duration,width,height,fps,has_audio,bitrate"
      ++ Csv.lineterminator)%string;
     ("a,12.5,1920,1080,30.0,1,128000" ++ Csv.lineterminator)%string] =
      ("Id,duration,width,height,fps,has_audio,bitrate"
       ++ Csv.lineterminator)%string ::
      map (fun fm =>
             let m := snd fm in
             (Str.join ","
                [Csv.cell (SStr (vid_id (fst fm)));
                 Csv.cell (duration m); Csv.cell (width m);
                 Csv.cell (height m); Csv.cell (fps m);
                 Csv.cell (has_audio m); Csv.cell (bitrate m)]
              ++ Csv.lineterminator)%string)
          records.
Proof.
  intros info w.
  assert (written (process_videos w "/videos" "out.csv") =
    Some [("Id,duration,width,height,fps,has_audio,bitrate"
           ++ Csv.lineterminator)%string;
          ("a,12.5,1920,1080,30.0,1,128000" ++ Csv.lineterminator)%string])
    as Hw by (vm_compute; reflexivity).
  split; [exact Hw |].
  exact (header_then_rows w "/videos" "out.csv" _ Hw).
Defined.

(** ** A path that exists but is no directory *)

(** C10.  When [video_dir] names a regular file, the existence check of
    line 130 passes, [os.listdir] raises [NotADirectoryError] and the
    exception leaves [process_videos]: nothing is logged, in particular not
    the error of the missing directory, and the output file is not
    opened. *)
Theorem regular_file_as_directory_raises
  (w : world) (video_dir output_csv : string) :
  node_at w video_dir = Some File ->
  os_path_exists w video_dir = true /\
  process_videos w video_dir output_csv =
  {| ending := Raise NotADirectoryError; log := []; written := None |}.
Proof.
  intros H. unfold process_videos, os_path_exists, os_listdir.
  rewrite H. split; reflexivity.
Qed.

Lemma regular_file_as_directory_raises_witness :
  let w :=
    {| node_at := fun p =>
         if String.eqb p "/videos/a.mp4" then Some File
         else if String.eqb p "/videos" then Some (Directory ["a.mp4"])
         else None;
       run := fun _ => Ok Garbage;
       open_error := fun _ => None |} in
  node_at w "/videos/a.mp4" = Some File /\
  os_path_exists w "/videos/a.mp4" = true /\
  process_videos w "/videos/a.mp4" "out.csv" =
  {| ending := Raise NotADirectoryError; log := []; written := None |}.
Proof.
  intros w. split; [reflexivity |].
  exact (regular_file_as_directory_raises w "/videos/a.mp4" "out.csv"
           eq_refl).
Defined.

(** * Further properties of the two functions *)

(** ** The search for a stream *)

Section SearchFacts.

(** The generator finds what a plain search of the list finds. *)
Lemma first_stream_find (kind : string) (items : list json)
  (found : option json) :
  first_stream kind items = Ok found ->
  find (is_entry kind) items = found.
Proof.
  induction items as [| x items IH]; simpl.
  - intros H; now inversion H.
  - destruct x as [| | | | | | d]; simpl; try discriminate.
    destruct (Obj.assoc "codec_type" d) as [t |] eqn:E; simpl.
    + destruct (Obj.eq_str t kind) eqn:Et; simpl.
      * intros H; now inversion H.
      * exact IH.
    + exact IH.
Qed.

(** Once an entry is found, what follows in the list changes nothing. *)
Lemma first_stream_app (kind : string) (items extra : list json) (s : json) :
  first_stream kind items = Ok (Some s) ->
  first_stream kind (items ++ extra) = Ok (Some s).
Proof.
  induction items as [| x items IH]; simpl; [discriminate |].
  destruct (Obj.get x "codec_type" JNull) as [t | e]; simpl;
    [| discriminate].
  destruct (Obj.eq_str t kind); [auto | exact IH].
Qed.

(** The items the block searches are the probe's stream list. *)
Lemma searched_items (w : world) (video_path : string) (o : stdout)
  (info streams : json) (items : list json) (kind : string)
  (found : option json) :
  run w (cmd video_path) = Ok o ->
  json_loads o = Ok info ->
  Obj.get info "streams" (JList []) = Ok streams ->
  Obj.iter streams = Ok items ->
  first_stream kind items = Ok found ->
  stream_list w video_path = items.
Proof.
  intros Hrun Hj Hs Hi Ha.
  destruct o as [| | | | doc]; simpl in Hj; try discriminate.
  inversion Hj; subst doc; clear Hj.
  destruct info as [| | | | | | d]; simpl in Hs; try discriminate.
  inversion Hs as [Hs']; clear Hs.
  pose proof (first_stream_items _ _ _ _ Hi Ha) as Hitems.
  unfold stream_list. rewrite Hrun, Hitems, <- Hs'.
  now destruct (Obj.assoc "streams" d).
Qed.

End SearchFacts.

(** ** Where the fields of a record come from *)

(** X3.  When extraction ran to its end (nothing was logged), the tool
    printed a JSON object and the record holds: as duration, [float] of
    the [duration] of its format part (of 0 when the key is missing); as
    bitrate, [int] of its [bit_rate] (of 0 when missing); and, from the
    first video entry of the stream list, [int] of its [width] and [height]
    (of 0 when missing) and the fps of its [r_frame_rate] (of [0/1] when
    missing).  When the stream list has no video entry, width, height and
    fps are absent. *)
Theorem completed_record_fields
  (w : world) (video_path : string) (m : metadata) :
  get_video_metadata w video_path = (Ok m, []) ->
  exists info fmt d x b n,
    run w (cmd video_path) = Ok (Document info) /\
    Obj.get info "format" (JDict []) = Ok fmt /\
    Obj.get fmt "duration" (JInt 0) = Ok d /\
    Obj.to_float d = Ok x /\ duration m = SFloat x /\
    Obj.get fmt "bit_rate" (JInt 0) = Ok b /\
    Obj.to_int b = Ok n /\ bitrate m = SInt n /\
    match first_entry "video" w video_path with
    | None => width m = SNone /\ height m = SNone /\ fps m = SNone
    | Some vs =>
        exists wd wv ht hv rate v,
          Obj.get vs "width" (JInt 0) = Ok wd /\
          Obj.to_int wd = Ok wv /\ width m = SInt wv /\
          Obj.get vs "height" (JInt 0) = Ok ht /\
          Obj.to_int ht = Ok hv /\ height m = SInt hv /\
          Obj.get vs "r_frame_rate" (JStr "0/1") = Ok (JStr rate) /\
          fps_of_parts (Text.split "/" rate) = Ok v /\ fps m = v
    end.
Proof.
  unfold get_video_metadata.
  destruct (try_body w video_path defaults) as [m' [u | e]] eqn:E;
    [| destruct (caught e); discriminate].
  intros H; inversion H; subst m'; clear H.
  revert E. unfold try_body. cbv [seq eval store done]. intros H.
  repeat split_result H; try discriminate.
  all: inversion H; subst; clear H.
  all: match goal with
       | Hj : json_loads ?o = Ok _ |- _ =>
           destruct o; simpl in Hj; try discriminate;
           inversion Hj; subst; clear Hj
       end.
  all: do 6 eexists.
  all: repeat (split; [eassumption || reflexivity |]).
  all: unfold first_entry.
  all: match goal with
       | Hr : run _ _ = Ok _, Hs : Obj.get _ "streams" _ = Ok _,
         Hi : Obj.iter _ = Ok _, Hv : first_stream "video" _ = Ok ?found
         |- _ =>
           rewrite (searched_items _ _ _ _ _ _ _ _ Hr eq_refl Hs Hi Hv),
                   (first_stream_find _ _ _ Hv);
           destruct found as [vs |];
           [pose proof (first_stream_some _ _ _ Hv) as (_ & _ & Ht) |]
       end.
  all: simpl in *; try congruence.
  all: try (repeat split; reflexivity).
  all: match goal with
       | Hp : Obj.split_slash ?r = Ok _ |- _ =>
           destruct r; simpl in Hp; try discriminate;
           inversion Hp; subst; clear Hp
       end.
  all: do 6 eexists; repeat (split; [eassumption || reflexivity |]);
    reflexivity.
Qed.

Lemma completed_record_fields_witness :
  let info := document [audio_entry; video_entry "30/1"] "12.5" in
  let w := machine "/videos" ["a.mp4"] (Ok (Document info)) in
  exists m,
    get_video_metadata w "/videos/a.mp4" = (Ok m, []) /\
    exists info fmt d x b n,
      run w (cmd "/videos/a.mp4") = Ok (Document info) /\
      Obj.get info "format" (JDict []) = Ok fmt /\
      Obj.get fmt "duration" (JInt 0) = Ok d /\
      Obj.to_float d = Ok x /\ duration m = SFloat x /\
      Obj.get fmt "bit_rate" (JInt 0) = Ok b /\
      Obj.to_int b = Ok n /\ bitrate m = SInt n /\
      match first_entry "video" w "/videos/a.mp4" with
      | None => width m = SNone /\ height m = SNone /\ fps m = SNone
      | Some vs =>
          exists wd wv ht hv rate v,
            Obj.get vs "width" (JInt 0) = Ok wd /\
            Obj.to_int wd = Ok wv /\ width m = SInt wv /\
            Obj.get vs "height" (JInt 0) = Ok ht /\
            Obj.to_int ht = Ok hv /\ height m = SInt hv /\
            Obj.get vs "r_frame_rate" (JStr "0/1") = Ok (JStr rate) /\
            fps_of_parts (Text.split "/" rate) = Ok v /\ fps m = v
      end.
Proof.
  intros info w. eexists. split; [reflexivity |].
  apply (completed_record_fields w "/videos/a.mp4"). reflexivity.
Defined.

(** ** The shape of a record *)

Lemma fps_of_parts_shape (parts : list text) (v : scalar) :
  fps_of_parts parts = Ok v -> v = SInt 0 \/ exists x, v = SFloat x.
Proof.
  unfold fps_of_parts.
  destruct parts as [| num [| den [| y rest]]];
    try (intros H; inversion H; auto; fail).
  destruct (Num.int_of_str den) as [d |]; simpl; [| discriminate].
  destruct (negb (d =? 0)); [| intros H; inversion H; auto].
  destruct (Num.int_of_str num) as [n |]; simpl; [| discriminate].
  destruct (Num.truediv n d) as [q |]; simpl; [| discriminate].
  intros H; inversion H; eauto.
Qed.

(** X4.  The columns of every record returned have fixed types: the
    duration is absent or a float; width, height and bitrate are absent or
    ints; fps is absent, the int 0 or a float; has_audio is the int 0 or
    1. *)
Theorem column_types (w : world) (video_path : string) (m : metadata) :
  fst (get_video_metadata w video_path) = Ok m ->
  float_or_absent (duration m) /\
  int_or_absent (width m) /\
  int_or_absent (height m) /\
  (fps m = SNone \/ fps m = SInt 0 \/ exists x, fps m = SFloat x) /\
  (has_audio m = SInt 0 \/ has_audio m = SInt 1) /\
  int_or_absent (bitrate m).
Proof.
  intros Hm. pose proof (has_audio_bit w video_path m Hm) as Haudio.
  revert Hm. unfold get_video_metadata.
  destruct (try_body w video_path defaults) as [m' r] eqn:E.
  assert (float_or_absent (duration m') /\ int_or_absent (width m') /\
          int_or_absent (height m') /\
          (fps m' = SNone \/ fps m' = SInt 0 \/ exists x, fps m' = SFloat x)
          /\ int_or_absent (bitrate m')) as Hshape.
  { revert E. unfold try_body. cbv [seq eval store done]. intros H.
    repeat split_result H; inversion H; subst; clear H; simpl.
    all: repeat match goal with
           | Hf : fps_of_parts _ = Ok _ |- _ =>
               apply fps_of_parts_shape in Hf
           end.
    all: repeat split; auto.
    all: match goal with
         | Hf : _ \/ _ |- _ => destruct Hf as [-> | [x ->]]; eauto
         end. }
  assert (m' = m -> float_or_absent (duration m) /\
    int_or_absent (width m) /\ int_or_absent (height m) /\
    (fps m = SNone \/ fps m = SInt 0 \/ exists x, fps m = SFloat x) /\
    (has_audio m = SInt 0 \/ has_audio m = SInt 1) /\
    int_or_absent (bitrate m)) as Hgoal.
  { intros <-. tauto. }
  destruct r as [u | e]; simpl.
  - intros H; inversion H; auto.
  - destruct (caught e); simpl; [| discriminate].
    intros H; inversion H; auto.
Qed.

Lemma column_types_witness :
  let info := document [video_entry "30/0"] "12.5" in
  let w := machine "/videos" ["a.mp4"] (Ok (Document info)) in
  exists m,
    fst (get_video_metadata w "/videos/a.mp4") = Ok m /\
    float_or_absent (duration m) /\
    int_or_absent (width m) /\
    int_or_absent (height m) /\
    (fps m = SNone \/ fps m = SInt 0 \/ exists x, fps m = SFloat x) /\
    (has_audio m = SInt 0 \/ has_audio m = SInt 1) /\
    int_or_absent (bitrate m).
Proof.
  intros info w. eexists. split; [reflexivity |].
  apply (column_types w "/videos/a.mp4"). reflexivity.
Defined.

(** X5.  The keys are filled in a fixed order, so a record stopped by a
    contained error is filled up to some point and default from there: in
    every record returned, a bitrate comes with a duration, a width with a
    bitrate, a height with a width and an fps with a height; and
    has_audio = 1 comes with a duration and a bitrate. *)
Theorem fields_filled_in_order
  (w : world) (video_path : string) (m : metadata) :
  fst (get_video_metadata w video_path) = Ok m ->
  (bitrate m <> SNone -> duration m <> SNone) /\
  (width m <> SNone -> bitrate m <> SNone) /\
  (height m <> SNone -> width m <> SNone) /\
  (fps m <> SNone -> height m <> SNone) /\
  (has_audio m = SInt 1 -> duration m <> SNone /\ bitrate m <> SNone).
Proof.
  unfold get_video_metadata.
  destruct (try_body w video_path defaults) as [m' r] eqn:E.
  assert ((bitrate m' <> SNone -> duration m' <> SNone) /\
          (width m' <> SNone -> bitrate m' <> SNone) /\
          (height m' <> SNone -> width m' <> SNone) /\
          (fps m' <> SNone -> height m' <> SNone) /\
          (has_audio m' = SInt 1 ->
           duration m' <> SNone /\ bitrate m' <> SNone)) as Hm'.
  { revert E. unfold try_body. cbv [seq eval store done]. intros H.
    repeat split_result H; inversion H; subst; clear H; simpl.
    all: repeat split; try congruence; try discriminate. }
  destruct r as [u | e]; simpl.
  - intros H; inversion H; subst; exact Hm'.
  - destruct (caught e); simpl; [| discriminate].
    intros H; inversion H; subst; exact Hm'.
Qed.

Lemma fields_filled_in_order_witness :
  let info :=
    JDict [("format", JDict [("duration", JStr "12.5");
                             ("bit_rate", JStr "N/A")])] in
  let w := machine "/videos" ["a.mp4"] (Ok (Document info)) in
  exists m,
    fst (get_video_metadata w "/videos/a.mp4") = Ok m /\
    duration m <> SNone /\ bitrate m = SNone /\
    (bitrate m <> SNone -> duration m <> SNone) /\
    (width m <> SNone -> bitrate m <> SNone) /\
    (height m <> SNone -> width m <> SNone) /\
    (fps m <> SNone -> height m <> SNone) /\
    (has_audio m = SInt 1 -> duration m <> SNone /\ bitrate m <> SNone).
Proof.
  intros info w. eexists. split; [reflexivity |].
  split; [discriminate |]. split; [reflexivity |].
  apply (fields_filled_in_order w "/videos/a.mp4"). reflexivity.
Defined.

(** ** Missing keys and trailing streams *)

(** X6.  A JSON object with neither a [format] nor a [streams] key is no
    error: the defaults of the lookups apply, and the record is returned,
    nothing logged, with duration 0.0 and bitrate 0 (not absent), width,
    height and fps absent, and has_audio 0. *)
Theorem missing_sections_give_zeros
  (w : world) (video_path : string) (d : list (string * json)) :
  run w (cmd video_path) = Ok (Document (JDict d)) ->
  Obj.assoc "format" d = None ->
  Obj.assoc "streams" d = None ->
  get_video_metadata w video_path =
  (Ok {| duration := SFloat (S754_zero false); width := SNone;
         height := SNone; fps := SNone; has_audio := SInt 0;
         bitrate := SInt 0 |}, []).
Proof.
  intros Hrun Hf Hs. unfold get_video_metadata, try_body.
  cbv [seq eval store done]. rewrite Hrun. simpl. rewrite Hf, Hs.
  reflexivity.
Qed.

Lemma missing_sections_give_zeros_witness :
  let w :=
    machine "/videos" ["a.mp4"]
      (Ok (Document (JDict [("programs", JList [])]))) in
  get_video_metadata w "/videos/a.mp4" =
  (Ok {| duration := SFloat (S754_zero false); width := SNone;
         height := SNone; fps := SNone; has_audio := SInt 0;
         bitrate := SInt 0 |}, []).
Proof.
  intros w.
  apply (missing_sections_give_zeros w "/videos/a.mp4"
           [("programs", JList [])]); reflexivity.
Defined.

(** X7.  Only the first video entry and the first audio entry of the
    stream list are read: once the list holds both, whatever follows them
    (further streams, entries of another shape, values that are no objects
    at all) changes neither the record nor the log, and raises nothing. *)
Theorem trailing_streams_ignored
  (w1 w2 : world) (video_path : string) (d1 d2 : list (string * json))
  (items extra : list json) (v a : json) :
  run w1 (cmd video_path) = Ok (Document (JDict d1)) ->
  run w2 (cmd video_path) = Ok (Document (JDict d2)) ->
  Obj.assoc "format" d1 = Obj.assoc "format" d2 ->
  Obj.assoc "streams" d1 = Some (JList items) ->
  Obj.assoc "streams" d2 = Some (JList (items ++ extra)) ->
  first_stream "video" items = Ok (Some v) ->
  first_stream "audio" items = Ok (Some a) ->
  get_video_metadata w2 video_path = get_video_metadata w1 video_path.
Proof.
  intros H1 H2 Hf Hs1 Hs2 Hv Ha.
  unfold get_video_metadata, try_body. cbv [seq eval store done].
  rewrite H1, H2. simpl. rewrite Hf, Hs1, Hs2. simpl.
  rewrite (first_stream_app _ _ extra _ Hv), (first_stream_app _ _ extra _ Ha).
  rewrite Hv, Ha. reflexivity.
Qed.

Lemma trailing_streams_ignored_witness :
  let items := [video_entry "30/1"; audio_entry] in
  let extra := [JNull; video_entry "x"; JStr "junk"] in
  let w1 := machine "/videos" ["a.mp4"]
              (Ok (Document (document items "12.5"))) in
  let w2 := machine "/videos" ["a.mp4"]
              (Ok (Document (document (items ++ extra) "12.5"))) in
  get_video_metadata w2 "/videos/a.mp4" =
  get_video_metadata w1 "/videos/a.mp4".
Proof.
  intros items extra w1 w2.
  eapply (trailing_streams_ignored w1 w2 "/videos/a.mp4")
    with (items := items) (extra := extra); reflexivity.
Defined.

(** ** How a run ends and what it logs *)

Section RunEndFacts.

Variables (w : world) (video_dir : string).

Lemma write_rows_logged (files : list string) :
  forall lines logged r lines' logged',
  write_rows w video_dir files lines logged = (r, lines', logged') ->
  r = Ok tt ->
  logged' = (logged ++ List.concat (map (logged_for w video_dir) files))%list.
Proof.
  induction files as [| f files IH]; intros lines logged r lines' logged' H Hr.
  - simpl in H. inversion H; subst. simpl. now rewrite app_nil_r.
  - simpl in H. unfold logged_for at 1. simpl.
    destruct (get_video_metadata w (PosixPath.join video_dir f))
      as [[meta | e] l] eqn:E.
    + rewrite (IH _ _ _ _ _ H Hr). simpl. now rewrite <- app_assoc.
    + inversion H; subst. discriminate.
Qed.

End RunEndFacts.

(** X9.  A run over a directory that returns has logged, in this order:
    the number of matching entries; for each matching entry, in listing
    order, what its extraction logged (nothing, or the one error record of
    a contained failure); and the completion record. *)
Theorem log_of_a_returning_run
  (w : world) (video_dir output_csv : string) (entries : list string) :
  node_at w video_dir = Some (Directory entries) ->
  ending (process_videos w video_dir output_csv) = Ok tt ->
  log (process_videos w video_dir output_csv) =
    (Info_found (Z.of_nat (List.length (filter is_mp4 entries))) video_dir ::
     List.concat (map (logged_for w video_dir) (filter is_mp4 entries)) ++
     [Info_done output_csv])%list /\
  forall f,
    logged_for w video_dir f = [] \/
    exists e,
      caught e = true /\
      logged_for w video_dir f =
        [Error_processing (PosixPath.join video_dir f) e].
Proof.
  intros Hdir Hend. split.
  - revert Hend. unfold process_videos, os_path_exists, os_listdir.
    rewrite Hdir. simpl.
    destruct (open_error w output_csv); simpl; [discriminate |].
    destruct (write_rows w video_dir (filter is_mp4 entries) [Csv.line header]
                [Info_found (Z.of_nat (List.length (filter is_mp4 entries)))
                   video_dir])
      as [[r lines'] logged] eqn:E.
    destruct r as [[] | e]; simpl; [| discriminate]. intros _.
    rewrite (write_rows_logged _ _ _ _ _ _ _ _ E eq_refl). reflexivity.
  - intros f. unfold logged_for, get_video_metadata.
    destruct (try_body w (PosixPath.join video_dir f) defaults)
      as [m' [u | e]]; simpl; [now left |].
    destruct (caught e) eqn:Hc; simpl; [| now left].
    right. now exists e.
Qed.

Lemma log_of_a_returning_run_witness :
  let w := machine "/videos" ["a.mp4"; "notes.txt"; "b.mp4"] (Ok Garbage) in
  log (process_videos w "/videos" "out.csv") =
    [Info_found 2 "/videos";
     Error_processing "/videos/a.mp4" JSONDecodeError;
     Error_processing "/videos/b.mp4" JSONDecodeError;
     Info_done "out.csv"].
Proof.
  intros w.
  rewrite (proj1 (log_of_a_returning_run w "/videos" "out.csv" _
                    eq_refl eq_refl)).
  reflexivity.
Defined.

(** X12.  A directory without a matching entry needs no probing tool: the
    run returns, the output file holds the header alone, and the log holds
    the count 0 and the completion record, whatever the probes would do. *)
Theorem nothing_to_probe
  (w : world) (video_dir output_csv : string) (entries : list string) :
  node_at w video_dir = Some (Directory entries) ->
  open_error w output_csv = None ->
  (forall f, In f entries -> is_mp4 f = false) ->
  process_videos w video_dir output_csv =
  {| ending := Ok tt;
     log := [Info_found 0 video_dir; Info_done output_csv];
     written := Some [Csv.line header] |}.
Proof.
  intros Hdir Hopen Hnone.
  assert (filter is_mp4 entries = []) as Hf.
  { clear Hdir. induction entries as [| f rest IH]; simpl; [reflexivity |].
    rewrite (Hnone f (or_introl eq_refl)).
    apply IH. intros g Hg. apply Hnone. now right. }
  unfold process_videos, os_path_exists, os_listdir.
  rewrite Hdir, Hopen, Hf. reflexivity.
Qed.

Lemma nothing_to_probe_witness :
  let w :=
    machine "/videos" ["notes.txt"; "clip.mp4.part"; "mp4"]
      (Raise FileNotFoundError) in
  process_videos w "/videos" "out.csv" =
  {| ending := Ok tt;
     log := [Info_found 0 "/videos"; Info_done "out.csv"];
     written := Some [Csv.line header] |}.
Proof.
  intros w.
  apply (nothing_to_probe w "/videos" "out.csv"
           ["notes.txt"; "clip.mp4.part"; "mp4"]);
    try reflexivity.
  intros f [<- | [<- | [<- | []]]]; reflexivity.
Defined.

(** ** Quoting *)

Section QuotingFacts.

Lemma plain_append (a b : string) :
  Csv.needs_quotes (a ++ b) = Csv.needs_quotes a || Csv.needs_quotes b.
Proof.
  induction a as [| c a IH]; simpl; [reflexivity |].
  now rewrite IH, orb_assoc.
Qed.

Lemma plain_take (n : nat) (s : string) :
  Csv.needs_quotes s = false -> Csv.needs_quotes (Str.take n s) = false.
Proof.
  revert s; induction n as [| n IH]; intros [| c s]; simpl; auto.
  intros H. apply orb_false_iff in H as [Hc Hs]. rewrite Hc. now apply IH.
Qed.

Lemma plain_drop (n : nat) (s : string) :
  Csv.needs_quotes s = false -> Csv.needs_quotes (Str.drop n s) = false.
Proof.
  revert s; induction n as [| n IH]; intros [| c s]; simpl; auto.
  intros H. apply orb_false_iff in H as [Hc Hs]. now apply IH.
Qed.

Lemma plain_zeros (n : nat) : Csv.needs_quotes (Str.repeat "0" n) = false.
Proof. induction n as [| n IH]; simpl; auto. Qed.

Lemma plain_uint (d : Decimal.uint) :
  Csv.needs_quotes (NilEmpty.string_of_uint d) = false.
Proof. induction d; simpl; auto. Qed.

Lemma plain_of_int (n : Z) : Csv.needs_quotes (Repr.of_int n) = false.
Proof.
  unfold Repr.of_int, NilZero.string_of_int, NilZero.string_of_uint.
  destruct (Z.to_int n) as [d | d].
  - destruct d; try reflexivity; apply (plain_uint (_ d)).
  - change (Csv.needs_quotes
              (String "-" match d with
                          | Decimal.Nil => "0"
                          | _ => NilEmpty.string_of_uint d
                          end) = false).
    simpl. destruct d; try reflexivity; apply (plain_uint (_ d)).
Qed.

Lemma plain_two_digits (e : Z) :
  Csv.needs_quotes (Repr.two_digits e) = false.
Proof.
  unfold Repr.two_digits. destruct (e <? 10).
  - rewrite plain_append, plain_of_int. reflexivity.
  - apply plain_of_int.
Qed.

Lemma plain_layout (ds : string) (decpt : Z) :
  Csv.needs_quotes ds = false ->
  Csv.needs_quotes (Repr.layout ds decpt) = false.
Proof.
  intros H. unfold Repr.layout.
  destruct ((decpt <=? -4) || (16 <? decpt)).
  - rewrite !plain_append, plain_take, plain_two_digits by exact H.
    destruct (1 <? Str.len ds);
      [rewrite plain_append, plain_drop by exact H |];
      now destruct (decpt - 1 <? 0).
  - destruct (decpt <=? 0).
    + now rewrite !plain_append, plain_zeros, H.
    + destruct (Str.len ds <=? decpt).
      * now rewrite !plain_append, plain_zeros, H.
      * now rewrite !plain_append, plain_take, plain_drop by exact H.
Qed.

Lemma plain_of_float (x : spec_float) :
  Csv.needs_quotes (Repr.of_float x) = false.
Proof.
  destruct x as [s | s | | s m e].
  - now destruct s.
  - now destruct s.
  - reflexivity.
  - unfold Repr.of_float.
    match goal with
    | |- context [Repr.shortest ?a ?b ?c ?d ?e ?f ?g] =>
        generalize (Repr.shortest a b c d e f g)
    end.
    intros [c k]. destruct (Repr.drop_zeros 400 c k) as [c' k'].
    rewrite plain_append, plain_layout by apply plain_of_int.
    now destruct s.
Qed.

Lemma plain_number (v : scalar) :
  absent_or_number v ->
  Csv.needs_quotes (Csv.text v) = false /\ Csv.cell v = Csv.text v.
Proof.
  intros Hv.
  assert (Csv.needs_quotes (Csv.text v) = false) as H.
  { destruct v as [| n | x | s]; simpl.
    - reflexivity.
    - apply plain_of_int.
    - apply plain_of_float.
    - contradiction. }
  split; [exact H |]. unfold Csv.cell. now rewrite H.
Qed.

End QuotingFacts.

(** X13.  Only the id of a row can need quoting: in every line of the
    output file after the header, the six metadata cells are written as
    they print, without quotes, and none of them holds a comma, a double
    quote, a carriage return or a line feed. *)
Theorem metadata_cells_are_plain
  (w : world) (video_dir output_csv : string) (lines : list string) :
  written (process_videos w video_dir output_csv) = Some lines ->
  Forall
    (fun ln =>
       exists fm,
         extracted w video_dir fm /\
         ln = (Str.join ","
                 (Csv.cell (SStr (vid_id (fst fm))) ::
                  map Csv.text (columns (snd fm)))
               ++ Csv.lineterminator)%string /\
         Forall (fun v => Csv.needs_quotes (Csv.text v) = false)
                (columns (snd fm)))
    (tl lines).
Proof.
  intros Hw.
  destruct (process_videos_written _ _ _ _ Hw)
    as (entries & records & rest & _ & _ & -> & Hall & _).
  simpl tl. apply Forall_forall. intros ln Hin.
  apply in_map_iff in Hin as (fm & <- & Hfm).
  rewrite Forall_forall in Hall. pose proof (Hall fm Hfm) as Hex.
  pose proof (returned_fields_numbers w _ _ Hex) as Hnum.
  rewrite Forall_forall in Hnum.
  exists fm. split; [exact Hex |]. split.
  - unfold row_line, Csv.line.
    change (row (vid_id (fst fm)) (snd fm))
      with (SStr (vid_id (fst fm)) :: columns (snd fm)).
    rewrite map_cons. do 3 f_equal.
    apply map_ext_in. intros v Hv. apply plain_number, Hnum, Hv.
  - apply Forall_forall. intros v Hv. apply plain_number, Hnum, Hv.
Qed.

Lemma metadata_cells_are_plain_witness :
  let info := document [video_entry "30000/1001"; audio_entry] "12.5" in
  let w := machine "/videos" ["a,b.mp4"] (Ok (Document info)) in
  exists lines,
    written (process_videos w "/videos" "out.csv") = Some lines /\
    Forall
      (fun ln =>
         exists fm,
           extracted w "/videos" fm /\
           ln = (Str.join ","
                   (Csv.cell (SStr (vid_id (fst fm))) ::
                    map Csv.text (columns (snd fm)))
                 ++ Csv.lineterminator)%string /\
           Forall (fun v => Csv.needs_quotes (Csv.text v) = false)
                  (columns (snd fm)))
      (tl lines).
Proof.
  intros info w. eexists.
  assert (written (process_videos w "/videos" "out.csv") = Some _) as Hw
    by (vm_compute; reflexivity).
  split; [exact Hw |].
  exact (metadata_cells_are_plain w "/videos" "out.csv" _ Hw).
Defined.

(** ** The ids of the rows *)

Lemma length_lower (s : string) :
  String.length (Str.lower s) = String.length s.
Proof. induction s as [| c s IH]; simpl; [reflexivity | now rewrite IH]. Qed.

(** X14.  The id of a selected entry, read off its name alone (a
    directory entry holds no [/]): with [stem] the name minus its last
    four characters, the id is [stem] when [stem] has a character other
    than [.], and the whole name otherwise.  In both cases the id is not
    empty. *)
Theorem id_of_a_selected_name (f : string) :
  is_mp4 f = true ->
  Str.mem "/" f = false ->
  let stem := Str.take (String.length f - 4) f in
  vid_id f = (if has_other_than_dot stem then stem else f) /\
  vid_id f <> EmptyString.
Proof.
  intros Hsel Hsep stem.
  apply is_mp4_iff in Hsel as (stem' & ext & Hf & Hext).
  assert (String.length ext = 4%nat) as Hlen
    by (rewrite <- length_lower, Hext; reflexivity).
  assert (stem = stem') as ->.
  { unfold stem. rewrite Hf, length_append, Hlen.
    replace (String.length stem' + 4 - 4)%nat with (String.length stem')
      by lia.
    apply take_append. }
  subst f. unfold vid_id. rewrite (splitext_video _ _ Hext Hsep).
  split; [reflexivity |].
  destruct (has_other_than_dot stem') eqn:Hs.
  - destruct stem'; [discriminate Hs | discriminate].
  - destruct ext; [discriminate Hlen |]. now destruct stem'.
Qed.

Lemma id_of_a_selected_name_witness :
  is_mp4 "..MP4" = true /\ Str.mem "/" "..MP4" = false /\
  vid_id "..MP4" = "..MP4" /\ vid_id "..MP4" <> EmptyString.
Proof.
  split; [reflexivity |]. split; [reflexivity |].
  exact (id_of_a_selected_name "..MP4" eq_refl eq_refl).
Defined.

(** X15.  Ids are not unique: two entries with the same stem whose
    extensions differ only in the case of their letters (such as [a.mp4]
    and [a.MP4]) are both selected and get the same id. *)
Theorem ids_ignore_extension_case (stem ext1 ext2 : string) :
  Str.lower ext1 = ".mp4" ->
  Str.lower ext2 = ".mp4" ->
  Str.mem "/" stem = false ->
  has_other_than_dot stem = true ->
  is_mp4 (stem ++ ext1) = true /\ is_mp4 (stem ++ ext2) = true /\
  vid_id (stem ++ ext1) = vid_id (stem ++ ext2).
Proof.
  intros H1 H2 Hsep Hstem.
  assert (forall ext, Str.lower ext = ".mp4" ->
            Str.mem "/" (stem ++ ext) = false) as Hno.
  { intros ext Hext.
    enough (forall a b, Str.mem "/" (a ++ b) =
                        Str.mem "/" a || Str.mem "/" b) as Happ.
    { rewrite Happ, Hsep. simpl.
      destruct ext as [| c0 [| c1 [| c2 [| c3 [| c4 r]]]]];
        try discriminate.
      simpl in Hext. inversion Hext as [[E0 E1 E2 E3]].
      simpl.
      assert (forall c x, Str.lower_char c = x ->
                Ascii.eqb x "/" = false -> Ascii.eqb c "/" = false) as Hc.
      { intros c x <-.
        destruct c as [b0 b1 b2 b3 b4 b5 b6 b7];
          destruct b0, b1, b2, b3, b4, b5, b6, b7; auto. }
      rewrite (Hc _ _ E0 eq_refl), (Hc _ _ E1 eq_refl),
              (Hc _ _ E2 eq_refl), (Hc _ _ E3 eq_refl).
      reflexivity. }
    intros a b. induction a as [| x a IH]; simpl; [reflexivity |].
    now rewrite IH, orb_assoc. }
  repeat split.
  - apply is_mp4_iff. now exists stem, ext1.
  - apply is_mp4_iff. now exists stem, ext2.
  - unfold vid_id.
    rewrite (splitext_video _ _ H1 (Hno _ H1)),
            (splitext_video _ _ H2 (Hno _ H2)), Hstem.
    reflexivity.
Qed.

Lemma ids_ignore_extension_case_witness :
  is_mp4 "a.mp4" = true /\ is_mp4 "a.MP4" = true /\
  vid_id "a.mp4" = vid_id "a.MP4".
Proof.
  exact (ids_ignore_extension_case "a" ".mp4" ".MP4"
           eq_refl eq_refl eq_refl eq_refl).
Defined.

(** ** Reading the int cells back *)

Section IntRoundTrip.

Lemma more_digits_uint (d : Decimal.uint) (acc : Num.digits) :
  Num.more_digits (NilEmpty.string_of_uint d) acc =
  (read_uint d acc, EmptyString).
Proof.
  revert acc; induction d; intros acc; simpl; auto.
Qed.

Lemma read_uint_pos (d : Decimal.uint) (acc : Num.digits) (p : positive) :
  Num.dval acc = Zpos p ->
  Num.dval (read_uint d acc) = Zpos (Pos.of_uint_acc d p).
Proof.
  revert acc p; induction d; intros acc p H;
    cbn [read_uint Pos.of_uint_acc]; auto;
    apply IHd; unfold Num.push; cbn [Num.dval]; rewrite H; lia.
Qed.

Lemma read_uint_zero (d : Decimal.uint) (acc : Num.digits) :
  Num.dval acc = 0 ->
  Num.dval (read_uint d acc) = Z.of_uint d.
Proof.
  unfold Z.of_uint.
  revert acc; induction d; intros acc H;
    cbn [read_uint Pos.of_uint Z.of_N]; auto;
    try (apply IHd; unfold Num.push; cbn [Num.dval]; rewrite H;
         reflexivity);
    apply read_uint_pos; unfold Num.push; cbn [Num.dval]; rewrite H;
    reflexivity.
Qed.

Lemma read_uint_count (d : Decimal.uint) (acc : Num.digits) :
  Num.dcount (read_uint d acc) =
  Num.dcount acc + Z.of_nat (String.length (NilEmpty.string_of_uint d)).
Proof.
  revert acc; induction d; intros acc; simpl String.length; simpl read_uint;
    try rewrite IHd; unfold Num.push; simpl Num.dcount; lia.
Qed.

Lemma lstrip_no_space (s : string) : no_space s = true -> Num.lstrip s = s.
Proof.
  destruct s as [| c s]; simpl; [reflexivity |].
  intros H. apply andb_true_iff in H as [Hc _].
  now destruct (Num.isspace c).
Qed.

Lemma no_space_rev_onto (s acc : string) :
  no_space (Str.rev_onto s acc) = no_space s && no_space acc.
Proof.
  revert acc; induction s as [| c s IH]; intros acc; simpl; [reflexivity |].
  rewrite IH. simpl. destruct (Num.isspace c); simpl.
  - now rewrite andb_false_r.
  - reflexivity.
Qed.

Lemma rev_onto_twice (s a b : string) :
  Str.rev_onto (Str.rev_onto s a) b = Str.rev_onto a (s ++ b).
Proof.
  revert a b; induction s as [| c s IH]; intros a b; simpl; [reflexivity |].
  now rewrite IH.
Qed.

Lemma append_nil_r (s : string) : (s ++ EmptyString)%string = s.
Proof. induction s as [| c s IH]; simpl; [reflexivity | now rewrite IH]. Qed.

Lemma strip_no_space (s : string) : no_space s = true -> Num.strip s = s.
Proof.
  intros H. unfold Num.strip, Str.rev.
  rewrite (lstrip_no_space s H).
  rewrite lstrip_no_space
    by (rewrite no_space_rev_onto, H; reflexivity).
  rewrite rev_onto_twice. simpl. apply append_nil_r.
Qed.

Lemma no_space_uint (d : Decimal.uint) :
  no_space (NilEmpty.string_of_uint d) = true.
Proof. induction d; simpl; auto. Qed.

(** An ASCII text is read as it is. *)
Lemma ascii_form_plain (s : string) :
  Num.is_ascii (Text.of_string s) = true ->
  Num.ascii_form (Text.of_string s) = s.
Proof.
  intros H. unfold Num.ascii_form. rewrite H. unfold Text.of_string.
  rewrite map_map.
  rewrite (map_ext _ (fun c => c)) by (intros c; apply ascii_N_embedding).
  rewrite map_id. apply string_of_list_ascii_of_string.
Qed.

Lemma is_ascii_uint (d : Decimal.uint) :
  Num.is_ascii (Text.of_string (NilEmpty.string_of_uint d)) = true.
Proof. induction d; simpl; auto. Qed.

Lemma int_of_str_uint (neg : bool) (d : Decimal.uint) :
  (String.length (NilZero.string_of_uint d) <= 4300)%nat ->
  Num.int_of_str
    ((if neg then "-" else EmptyString) ++ NilZero.string_of_uint d) =
  Ok (if neg then - Z.of_uint d else Z.of_uint d).
Proof.
  intros Hlen. unfold Num.int_of_str.
  rewrite ascii_form_plain
    by (unfold NilZero.string_of_uint;
        destruct neg; destruct d; try reflexivity; apply is_ascii_uint).
  unfold Num.int_of_ascii.
  assert (no_space ((if neg then "-" else EmptyString) ++
                    NilZero.string_of_uint d) = true) as Hns.
  { unfold NilZero.string_of_uint.
    destruct neg; destruct d; try reflexivity; simpl;
      apply no_space_uint. }
  rewrite (strip_no_space _ Hns).
  assert (Num.sign ((if neg then "-" else EmptyString) ++
                    NilZero.string_of_uint d) =
          (neg, NilZero.string_of_uint d)) as ->.
  { unfold NilZero.string_of_uint. destruct neg; destruct d; reflexivity. }
  assert (Num.digitpart (NilZero.string_of_uint d) =
          Some (read_uint (match d with
                           | Decimal.Nil => Decimal.D0 Decimal.Nil
                           | _ => d
                           end) Num.no_digits, EmptyString)) as ->.
  { unfold NilZero.string_of_uint.
    destruct d; try reflexivity; simpl; now rewrite more_digits_uint. }
  assert (Num.dcount
            (read_uint (match d with
                        | Decimal.Nil => Decimal.D0 Decimal.Nil
                        | _ => d
                        end) Num.no_digits) <= 4300) as Hc.
  { rewrite read_uint_count. unfold NilZero.string_of_uint in Hlen.
    destruct d; simpl Num.dcount; simpl String.length in *; lia. }
  assert ((Num.max_str_digits <? Num.dcount
             (read_uint (match d with
                         | Decimal.Nil => Decimal.D0 Decimal.Nil
                         | _ => d
                         end) Num.no_digits)) = false) as ->
    by (apply Z.ltb_ge; exact Hc).
  rewrite read_uint_zero by reflexivity.
  now destruct d.
Qed.

End IntRoundTrip.

(** X16.  An int written to the table reads back: for every int [n] whose
    decimal text has at most 4300 characters, the cell of [n] is that
    text, and [int] of the cell is [n] again.  So the width, height and
    bitrate of a row can be recovered from the file exactly. *)
Theorem int_cell_reads_back (n : Z) :
  (String.length (Repr.of_int n) <= 4300)%nat ->
  Csv.cell (SInt n) = Repr.of_int n /\
  Num.int_of_str (Csv.cell (SInt n)) = Ok n.
Proof.
  intros Hlen.
  assert (Csv.cell (SInt n) = Repr.of_int n) as Hcell
    by (apply (plain_number (SInt n)); exact I).
  split; [exact Hcell |]. rewrite Hcell.
  revert Hlen. unfold Repr.of_int, NilZero.string_of_int.
  pose proof (DecimalZ.of_to n) as Hn.
  destruct (Z.to_int n) as [d | d]; simpl in Hn; intros Hlen.
  - rewrite <- Hn. exact (int_of_str_uint false d Hlen).
  - rewrite <- Hn. apply (int_of_str_uint true d).
    simpl String.length in Hlen. lia.
Qed.

Lemma int_cell_reads_back_witness :
  (String.length (Repr.of_int (-128000)) <= 4300)%nat /\
  Csv.cell (SInt (-128000)) = Repr.of_int (-128000) /\
  Num.int_of_str (Csv.cell (SInt (-128000))) = Ok (-128000).
Proof.
  assert (String.length (Repr.of_int (-128000)) <= 4300)%nat as H
    by (vm_compute; lia).
  split; [exact H |]. exact (int_cell_reads_back (-128000) H).
Defined.

(** ** Contained errors and partial output *)



Lemma escaping_exceptions_witness :
  let w := machine "/videos" ["a.mp4"] (Ok TooDeep) in
  get_video_metadata w "/videos/a.mp4" = (Raise RecursionError, []) /\
  caught RecursionError = false.
Proof.
  intros w. split; [reflexivity |].
  exact (proj1 (proj2 (escaping_exceptions w "/videos/a.mp4"
                         RecursionError [] eq_refl))).
Defined.

(** X11.  A run stopped by an exception of an extraction leaves a partial
    table behind: the output file holds the header and the rows of the
    matching entries before the one whose extraction raised, and nothing
    for that entry or those after it; the completion record is not
    logged. *)
Theorem partial_table_when_extraction_raises
  (w : world) (video_dir output_csv : string) (entries : list string)
  (e : exn) (lines : list string) :
  node_at w video_dir = Some (Directory entries) ->
  ending (process_videos w video_dir output_csv) = Raise e ->
  written (process_videos w video_dir output_csv) = Some lines ->
  exists records f rest,
    filter is_mp4 entries = (map fst records ++ f :: rest)%list /\
    Forall (extracted w video_dir) records /\
    fst (get_video_metadata w (PosixPath.join video_dir f)) = Raise e /\
    lines = Csv.line header :: map row_line records /\
    ~ In (Info_done output_csv)
         (log (process_videos w video_dir output_csv)).
Proof.
  intros Hdir. unfold process_videos, os_path_exists, os_listdir.
  rewrite Hdir. simpl.
  destruct (open_error w output_csv); simpl; [discriminate |].
  destruct (write_rows w video_dir (filter is_mp4 entries) [Csv.line header]
              [Info_found (Z.of_nat (List.length (filter is_mp4 entries)))
                 video_dir])
    as [[r lines'] logged] eqn:E.
  destruct r as [u | e']; simpl; [discriminate |].
  intros He Hw. inversion He; subst e'. inversion Hw; subst lines'.
  destruct (write_rows_spec _ _ _ _ _ _ _ _ E)
    as (records & rest & Hfiles & Hlines & Hall & f & rest' & -> & Hf).
  exists records, f, rest'. repeat split; auto.
  intros Hin.
  assert (forall files lines0 logged0 r0 lines1 logged1,
            write_rows w video_dir files lines0 logged0 =
              (r0, lines1, logged1) ->
            In (Info_done output_csv) logged1 ->
            In (Info_done output_csv) logged0) as Hlog.
  { induction files as [| g files IH]; intros l0 g0 r0 l1 g1 H.
    - simpl in H. now inversion H.
    - simpl in H.
      pose proof (extraction_log w (PosixPath.join video_dir g)) as Hg.
      destruct (get_video_metadata w (PosixPath.join video_dir g))
        as [[meta | e0] l]; simpl in Hg.
      + intros Hi. apply (IH _ _ _ _ _ H) in Hi.
        apply in_app_or in Hi as [Hi | Hi]; [exact Hi |].
        destruct (Hg _ Hi) as [e1 He1]. discriminate.
      + inversion H; subst. intros Hi.
        apply in_app_or in Hi as [Hi | Hi]; [exact Hi |].
        destruct (Hg _ Hi) as [e1 He1]. discriminate. }
  apply (Hlog _ _ _ _ _ _ E) in Hin.
  destruct Hin as [Hin | []]. discriminate.
Qed.

Lemma partial_table_when_extraction_raises_witness :
  let w := machine "/videos" ["a.mp4"; "b.mp4"]
             (Ok (Document (JList []))) in
  exists records f rest,
    filter is_mp4 ["a.mp4"; "b.mp4"] = (map fst records ++ f :: rest)%list /\
    Forall (extracted w "/videos") records /\
    fst (get_video_metadata w (PosixPath.join "/videos" f)) =
      Raise AttributeError /\
    [Csv.line header] = Csv.line header :: map row_line records /\
    ~ In (Info_done "out.csv") (log (process_videos w "/videos" "out.csv")).
Proof.
  intros w.
  exact (partial_table_when_extraction_raises w "/videos" "out.csv"
           ["a.mp4"; "b.mp4"] AttributeError [Csv.line header]
           eq_refl eq_refl eq_refl).
Defined.
